(** * Resume AI front end (static/app.js): form controller

    A shallow embedding of the page script.  The script is a set of event
    handlers over the DOM; the embedding keeps the part of the DOM the
    handlers read and write, the browser tables they use (interval and
    one-shot timers, object URLs, pending fetches and clipboard writes) and
    a log of the actions that leave the page (network requests, anchor
    clicks, clipboard writes).

    - strings are sequences of UTF-16 code units, as in JavaScript;
    - elements looked up by id are entries of finite maps keyed by the id;
    - handlers are written in a small state-and-exception monad, so that
      [try]/[catch]/[finally] read as in the source;
    - an [async] handler is split at its first [await]: the part before it
      runs when the event is dispatched, the part after it when the request
      (or the clipboard write) settles.

    Calls that change nothing the script reads back are left out
    ([e.preventDefault()], [scrollIntoView]). *)

From Stdlib Require Import ZArith NArith Ascii String List DecimalString DecimalN.
From stdpp Require Import base option strings list gmap.

Set Warnings "-register-all,-clear-no-such-hyp".
Local Open Scope N_scope.

(** ** JavaScript strings *)

(** A string value is its sequence of UTF-16 code units. *)
Abbreviation jsstring := (list N).

(** A source literal made of ASCII characters. *)
Fixpoint lit (s : string) : jsstring :=
  match s with
  | EmptyString => []
  | String a s' => N_of_ascii a :: lit s'
  end.

(** WhiteSpace and LineTerminator code points of ECMAScript, the ones
    [String.prototype.trim] strips: TAB, LF, VT, FF, CR, SP, NBSP, U+1680,
    U+2000..U+200A, U+2028, U+2029, U+202F, U+205F, U+3000 and U+FEFF. *)
Definition is_js_space (c : N) : bool :=
  existsb (N.eqb c)
    [9; 10; 11; 12; 13; 32; 160; 5760; 8232; 8233; 8239; 8287; 12288; 65279]
  || ((8192 <=? c) && (c <=? 8202)).

Fixpoint trimStart (s : jsstring) : jsstring :=
  match s with
  | [] => []
  | c :: s' => if is_js_space c then trimStart s' else s
  end.

Definition trimEnd (s : jsstring) : jsstring := rev (trimStart (rev s)).

(** [s.trim()] *)
Definition trim (s : jsstring) : jsstring := trimEnd (trimStart s).

(** [x || d] where [x] is a string or [undefined] ([None]): the empty
    string and [undefined] are the falsy ones. *)
Definition or_else (x : option jsstring) (d : jsstring) : jsstring :=
  match x with
  | Some (c :: s) => c :: s
  | _ => d
  end.

(** [!x] for a string [x]. *)
Definition is_empty (x : jsstring) : bool :=
  match x with [] => true | _ => false end.

(** [x === 'lit'] where [x] is a string or [undefined]. *)
Definition strict_eq (x : option jsstring) (s : string) : bool :=
  bool_decide (x = Some (lit s)).

(** Decimal rendering of a non-negative integer, as the template literal
    [`${n}`] gives it. *)
Definition decimal (n : N) : jsstring := lit (NilZero.string_of_uint (N.to_uint n)).

(** ** Built-in functions the script calls *)

(** *** Numbers

    The only Numbers the script computes are the results of
    [parseInt(_, 10)]: NaN or an integer.  [JInt z] stands for the Number of
    mathematical value [z] (a negative zero is [JInt 0]: the script cannot
    tell them apart); the engine's Number is that integer exactly up to
    [2^53] in magnitude, and the rendering below is the engine's up to
    [10^21]. *)
Inductive jsnum := JNaN | JInt (z : Z).

Definition is_digit (c : N) : bool := (48 <=? c) && (c <=? 57).

(** Value of the longest prefix of decimal digits, with the number of
    digits read. *)
Fixpoint digits_prefix (acc : Z) (count : nat) (s : jsstring) : Z * nat :=
  match s with
  | c :: s' =>
    if is_digit c then digits_prefix (10 * acc + Z.of_N (c - 48))%Z (S count) s'
    else (acc, count)
  | [] => (acc, count)
  end.

(** [parseInt(s, 10)]: skip leading white space, read an optional sign, then
    the longest run of digits; NaN when there is no digit. *)
Definition parseInt10 (s : jsstring) : jsnum :=
  let s := trimStart s in
  let '(sign, s) :=
    match s with
    | 45 :: s' => ((-1)%Z, s')
    | 43 :: s' => (1%Z, s')
    | _ => (1%Z, s)
    end in
  match digits_prefix 0 0 s with
  | (_, O) => JNaN
  | (v, _) => JInt (sign * v)
  end.

(** [`${n}`] for a Number [n]. *)
Definition number_to_string (n : jsnum) : jsstring :=
  match n with
  | JNaN => lit "NaN"
  | JInt z => (if (z <? 0)%Z then lit "-" else []) ++ decimal (Z.abs_N z)
  end.

(** [n !== 1] *)
Definition is_not_one (n : jsnum) : bool :=
  match n with
  | JInt 1 => false
  | _ => true
  end.

(** *** decodeURIComponent

    ECMAScript's Decode with an empty set of preserved escapes: every
    [%XX] is an octet; an octet below 0x80 is its character, the others must
    form well-formed UTF-8 sequences, written wholly as escapes.  [None] is
    a thrown URIError. *)
Definition hex_value (c : N) : option N :=
  if (48 <=? c) && (c <=? 57) then Some (c - 48)
  else if (65 <=? c) && (c <=? 70) then Some (c - 55)
  else if (97 <=? c) && (c <=? 102) then Some (c - 87)
  else None.

(** A code unit of the input ([inl]) or the octet of an escape ([inr]). *)
Fixpoint unescape_octets (s : jsstring) : option (list (N + N)) :=
  match s with
  | [] => Some []
  | 37 :: rest =>
    match rest with
    | h :: l :: rest' =>
      match hex_value h, hex_value l, unescape_octets rest' with
      | Some a, Some b, Some r => Some (inr (16 * a + b) :: r)
      | _, _, _ => None
      end
    | _ => None
    end
  | c :: rest =>
    match unescape_octets rest with
    | Some r => Some (inl c :: r)
    | None => None
    end
  end.

Definition in_range (lo hi b : N) : bool := (lo <=? b) && (b <=? hi).

(** UTF16EncodeCodePoint *)
Definition utf16_encode (cp : N) : jsstring :=
  if cp <=? 65535 then [cp]
  else [(cp - 65536) / 1024 + 55296; (cp - 65536) mod 1024 + 56320].

(** Well-formed UTF-8 (Unicode, table 3-7), one sequence at a time. *)
Fixpoint utf8_decode (l : list (N + N)) : option jsstring :=
  match l with
  | [] => Some []
  | inl c :: r => cons c <$> utf8_decode r
  | inr b :: r =>
    if b <? 128 then cons b <$> utf8_decode r
    else if in_range 194 223 b then
      match r with
      | inr c1 :: r1 =>
        if in_range 128 191 c1
        then app (utf16_encode ((b - 192) * 64 + (c1 - 128))) <$> utf8_decode r1
        else None
      | _ => None
      end
    else if in_range 224 239 b then
      match r with
      | inr c1 :: inr c2 :: r2 =>
        if in_range (if b =? 224 then 160 else 128) (if b =? 237 then 159 else 191) c1
           && in_range 128 191 c2
        then app (utf16_encode ((b - 224) * 4096 + (c1 - 128) * 64 + (c2 - 128)))
               <$> utf8_decode r2
        else None
      | _ => None
      end
    else if in_range 240 244 b then
      match r with
      | inr c1 :: inr c2 :: inr c3 :: r3 =>
        if in_range (if b =? 240 then 144 else 128) (if b =? 244 then 143 else 191) c1
           && in_range 128 191 c2 && in_range 128 191 c3
        then app (utf16_encode ((b - 240) * 262144 + (c1 - 128) * 4096
                                + (c2 - 128) * 64 + (c3 - 128)))
               <$> utf8_decode r3
        else None
      | _ => None
      end
    else None
  end.

Definition decodeURIComponent (s : jsstring) : option jsstring :=
  unescape_octets s ≫= utf8_decode.

(** *** JSON.stringify on strings

    QuoteJSONString: the two-character escapes, [\uXXXX] for the other
    control characters and for lone surrogates, everything else as it is. *)
Definition hex_digit (n : N) : N := if n <? 10 then 48 + n else 87 + n.

Definition unicode_escape (c : N) : jsstring :=
  [92; 117; hex_digit (c / 4096 mod 16); hex_digit (c / 256 mod 16);
   hex_digit (c / 16 mod 16); hex_digit (c mod 16)].

Definition is_high_surrogate (c : N) : bool := in_range 55296 56319 c.
Definition is_low_surrogate (c : N) : bool := in_range 56320 57343 c.

Definition quote_unit (c : N) : jsstring :=
  if c =? 8 then lit "\b"
  else if c =? 9 then lit "\t"
  else if c =? 10 then lit "\n"
  else if c =? 12 then lit "\f"
  else if c =? 13 then lit "\r"
  else if c =? 34 then [92; 34]
  else if c =? 92 then [92; 92]
  else if (c <? 32) || is_low_surrogate c || is_high_surrogate c then unicode_escape c
  else [c].

Fixpoint quote_units (s : jsstring) : jsstring :=
  match s with
  | [] => []
  | c :: r =>
    if is_high_surrogate c then
      match r with
      | d :: r' =>
        if is_low_surrogate d then c :: d :: quote_units r'
        else unicode_escape c ++ quote_units r
      | [] => unicode_escape c
      end
    else quote_unit c ++ quote_units r
  end.

Definition QuoteJSONString (s : jsstring) : jsstring := [34] ++ quote_units s ++ [34].

(** *** JSON values

    What [await resp.json()] resolves to.  A number is kept as its
    canonical rendering (Number::toString of the parsed value), which is
    all the script can see of it; an object is its members in source order,
    a later duplicate of a key overriding an earlier one. *)
Inductive json :=
  | JNull
  | JBool (b : bool)
  | JNum (rendering : jsstring)
  | JStr (s : jsstring)
  | JArr (items : list json)
  | JObj (members : list (jsstring * json)).

Definition own_property (members : list (jsstring * json)) (k : jsstring) : option json :=
  snd <$> List.find (fun m => bool_decide (fst m = k)) (rev members).

(** [j.name] for a name that no built-in prototype defines (the script reads
    [detail], [script] and [changes_summary]).  The outer [None] is the
    TypeError of reading a property of [null]; [Some None] is [undefined]. *)
Definition get_property (j : json) (name : string) : option (option json) :=
  match j with
  | JNull => None
  | JObj members => Some (own_property members (lit name))
  | _ => Some None
  end.

(** ToBoolean, on a value or [undefined] ([None]). *)
Definition truthy (v : option json) : bool :=
  match v with
  | None | Some JNull => false
  | Some (JBool b) => b
  | Some (JNum r) => negb (bool_decide (r = lit "0"))
  | Some (JStr s) => negb (is_empty s)
  | Some (JArr _) | Some (JObj _) => true
  end.

(** ToString.  An array is its elements joined by commas ([null] elements
    give the empty string); a plain object is ["[object Object]"] through
    [Object.prototype.toString], unless a member named [toString] shadows
    that method with a value that cannot be called, in which case the
    conversion throws a TypeError ([None]). *)
Fixpoint ToString (v : json) : option jsstring :=
  match v with
  | JNull => Some (lit "null")
  | JBool true => Some (lit "true")
  | JBool false => Some (lit "false")
  | JNum r => Some r
  | JStr s => Some s
  | JArr items =>
    (fix join (l : list json) : option jsstring :=
       match l with
       | [] => Some []
       | x :: l' =>
         let piece := match x with JNull => Some [] | _ => ToString x end in
         match piece, l' with
         | None, _ => None
         | Some p, [] => Some p
         | Some p, _ :: _ => (fun rest => p ++ lit "," ++ rest) <$> join l'
         end
       end) items
  | JObj members =>
    match own_property members (lit "toString") with
    | Some _ => None
    | None => Some (lit "[object Object]")
    end
  end.

(** ** The page *)

(** An element of class ['tab'], with its class list and its [data-tab]
    attribute ([dataset.tab] is [undefined] when the attribute is absent). *)
Record tab := {
  tab_classList : gset string;
  tab_dataset_tab : option jsstring;
}.

(** An anchor element made by [document.createElement('a')]: [href] holds an
    object URL (a handle into the browser's blob URL store). *)
Record anchor := {
  href : option nat;
  download : option jsstring;
}.

Definition blob := list Byte.byte.

(** The two triggers of a request: the form's submit event and a click on
    the script button. *)
Inductive trigger := Generate | Script.

(** An interval timer: its delay in milliseconds and the variable [idx]
    captured by its callback. *)
Record timer := {
  delay : N;
  idx : nat;
}.

(** What [fetch] is called with. *)
Record request := {
  url : string;
  method : string;
  headers : list (string * string);
  body : jsstring;
}.

(** Actions visible outside the script's own variables, in the order they
    happen.  [AClick a target] is [a.click()] on anchor [a]; [target] is the
    blob its [href] resolves to at that moment, so a click with a [download]
    attribute and a resolving [href] is a file download.  [AWriteText t] is
    [navigator.clipboard.writeText(t)], [ASelect id] is [select()] on the
    element [id] and [AExecCommand c] is [document.execCommand(c)]. *)
Inductive action :=
  | AFetch (r : request)
  | ACreateObjectURL (u : nat) (b : blob)
  | AAppendChild (n : nat)
  | AClick (a : anchor) (target : option blob)
  | ARemoveChild (n : nat)
  | ARevokeObjectURL (u : nat)
  | AWriteText (t : jsstring)
  | ASelect (id : string)
  | AExecCommand (command : string).

(** The state the handlers run in.

    - [tabs]: the elements of class ['tab'] in document order;
    - [form]: [form[name]?.value] for the controls of the form: a name is
      bound when the form has a control of that name with a string value
      (otherwise [form[name]?.value] is [undefined]);
    - [classes], [text], [disabled]: class list, [textContent] (or [value])
      and the [disabled] flag of the elements the script holds by id; the
      page is taken to contain every element the script looks up by id;
    - [body_children]: the nodes appended to [document.body] by the script;
    - [stepTimer]: the script's variable of that name ([null] is [None]);
    - [timers]: the live interval timers; [object_urls]: the blob URL store;
      [fresh]: the next unused handle;
    - [inflight]: the requests that have not settled yet;
    - [log]: the actions performed so far;
    - [timeouts]: the live one-shot timers of [setTimeout], with their
      delay; [copying]: the clipboard writes that have not settled yet. *)
Record state := {
  tabs : list tab;
  form : gmap string jsstring;
  classes : gmap string (gset string);
  text : gmap string jsstring;
  disabled : gset string;
  body_children : list (nat * anchor);
  stepTimer : option nat;
  timers : gmap nat timer;
  object_urls : gmap nat blob;
  fresh : nat;
  inflight : list trigger;
  log : list action;
  timeouts : gmap nat N;
  copying : nat;
}.

(** ** Reading the form (lines 106-131) *)

Record payload := {
  base_script : jsstring;
  jd_api_endpoint : jsstring;
  jd_api_key : jsstring;
  job_id : jsstring;
  jd_raw : jsstring;
  candidate_name : jsstring;
  target_role : jsstring;
  company_name : jsstring;
}.

(** [document.querySelector('.tab.active')?.dataset.tab]: the [data-tab] of
    the first element carrying both classes, [undefined] when there is
    none. *)
Definition is_active_tab (t : tab) : bool :=
  bool_decide ("tab"%string ∈ tab_classList t) && bool_decide ("active"%string ∈ tab_classList t).

Definition activeTab (s : state) : option jsstring :=
  match List.find is_active_tab (tabs s) with
  | Some t => tab_dataset_tab t
  | None => None
  end.

(** [form[name]?.value?.trim()] *)
Definition trimmed (s : state) (name : string) : option jsstring :=
  trim <$> form s !! name.

(** [collectFormData()].  [form['base_script'].value.trim()] has no optional
    chaining: without that control the call throws a TypeError ([None]). *)
Definition collectFormData (s : state) : option payload :=
  let activeTab := activeTab s in
  match trimmed s "base_script" with
  | None => None
  | Some script =>
    Some {|
      base_script := script;
      jd_api_endpoint :=
        if strict_eq activeTab "api" then or_else (trimmed s "jd_api_endpoint") [] else [];
      jd_api_key :=
        if strict_eq activeTab "api" then or_else (trimmed s "jd_api_key") [] else [];
      job_id :=
        if strict_eq activeTab "api" then or_else (trimmed s "job_id") [] else [];
      jd_raw :=
        if strict_eq activeTab "paste" then or_else (trimmed s "jd_raw") [] else [];
      candidate_name := or_else (trimmed s "candidate_name") (lit "BHARATH KUMAR RAJESH");
      target_role := or_else (trimmed s "target_role") [];
      company_name := or_else (trimmed s "company_name") [];
    |}
  end.

(** [validate(data)]: [None] is [null]. *)
Definition validate (s : state) (data : payload) : option jsstring :=
  let activeTab := activeTab s in
  if strict_eq activeTab "paste" && is_empty (jd_raw data) then
    Some (lit "Please paste a job description.")
  else if strict_eq activeTab "api" && is_empty (job_id data) then
    Some (lit "Please enter a Job ID or Job URL.")
  else None.

(** [JSON.stringify(data)] for the payload: its eight string members in the
    order the object literal lists them. *)
Definition member (name : string) (value : jsstring) : jsstring :=
  QuoteJSONString (lit name) ++ lit ":" ++ QuoteJSONString value.

Definition JSON_stringify (data : payload) : jsstring :=
  lit "{" ++ member "base_script" (base_script data)
  ++ lit "," ++ member "jd_api_endpoint" (jd_api_endpoint data)
  ++ lit "," ++ member "jd_api_key" (jd_api_key data)
  ++ lit "," ++ member "job_id" (job_id data)
  ++ lit "," ++ member "jd_raw" (jd_raw data)
  ++ lit "," ++ member "candidate_name" (candidate_name data)
  ++ lit "," ++ member "target_role" (target_role data)
  ++ lit "," ++ member "company_name" (company_name data)
  ++ lit "}".

(** ** State updates *)

Definition set_page (t : list tab) (f : gmap string jsstring) (s : state) : state :=
  {| tabs := t; form := f; classes := classes s; text := text s;
     disabled := disabled s; body_children := body_children s;
     stepTimer := stepTimer s; timers := timers s; object_urls := object_urls s;
     fresh := fresh s; inflight := inflight s; log := log s;
     timeouts := timeouts s; copying := copying s |}.

Definition set_classes (c : gmap string (gset string)) (s : state) : state :=
  {| tabs := tabs s; form := form s; classes := c; text := text s;
     disabled := disabled s; body_children := body_children s;
     stepTimer := stepTimer s; timers := timers s; object_urls := object_urls s;
     fresh := fresh s; inflight := inflight s; log := log s;
     timeouts := timeouts s; copying := copying s |}.

Definition set_text (t : gmap string jsstring) (s : state) : state :=
  {| tabs := tabs s; form := form s; classes := classes s; text := t;
     disabled := disabled s; body_children := body_children s;
     stepTimer := stepTimer s; timers := timers s; object_urls := object_urls s;
     fresh := fresh s; inflight := inflight s; log := log s;
     timeouts := timeouts s; copying := copying s |}.

Definition set_disabled (d : gset string) (s : state) : state :=
  {| tabs := tabs s; form := form s; classes := classes s; text := text s;
     disabled := d; body_children := body_children s;
     stepTimer := stepTimer s; timers := timers s; object_urls := object_urls s;
     fresh := fresh s; inflight := inflight s; log := log s;
     timeouts := timeouts s; copying := copying s |}.

Definition set_body_children (b : list (nat * anchor)) (s : state) : state :=
  {| tabs := tabs s; form := form s; classes := classes s; text := text s;
     disabled := disabled s; body_children := b;
     stepTimer := stepTimer s; timers := timers s; object_urls := object_urls s;
     fresh := fresh s; inflight := inflight s; log := log s;
     timeouts := timeouts s; copying := copying s |}.

Definition set_stepTimer (t : option nat) (s : state) : state :=
  {| tabs := tabs s; form := form s; classes := classes s; text := text s;
     disabled := disabled s; body_children := body_children s;
     stepTimer := t; timers := timers s; object_urls := object_urls s;
     fresh := fresh s; inflight := inflight s; log := log s;
     timeouts := timeouts s; copying := copying s |}.

Definition set_timers (t : gmap nat timer) (s : state) : state :=
  {| tabs := tabs s; form := form s; classes := classes s; text := text s;
     disabled := disabled s; body_children := body_children s;
     stepTimer := stepTimer s; timers := t; object_urls := object_urls s;
     fresh := fresh s; inflight := inflight s; log := log s;
     timeouts := timeouts s; copying := copying s |}.

Definition set_object_urls (u : gmap nat blob) (s : state) : state :=
  {| tabs := tabs s; form := form s; classes := classes s; text := text s;
     disabled := disabled s; body_children := body_children s;
     stepTimer := stepTimer s; timers := timers s; object_urls := u;
     fresh := fresh s; inflight := inflight s; log := log s;
     timeouts := timeouts s; copying := copying s |}.

Definition set_fresh (n : nat) (s : state) : state :=
  {| tabs := tabs s; form := form s; classes := classes s; text := text s;
     disabled := disabled s; body_children := body_children s;
     stepTimer := stepTimer s; timers := timers s; object_urls := object_urls s;
     fresh := n; inflight := inflight s; log := log s;
     timeouts := timeouts s; copying := copying s |}.

Definition set_inflight (l : list trigger) (s : state) : state :=
  {| tabs := tabs s; form := form s; classes := classes s; text := text s;
     disabled := disabled s; body_children := body_children s;
     stepTimer := stepTimer s; timers := timers s; object_urls := object_urls s;
     fresh := fresh s; inflight := l; log := log s;
     timeouts := timeouts s; copying := copying s |}.

Definition add_log (a : action) (s : state) : state :=
  {| tabs := tabs s; form := form s; classes := classes s; text := text s;
     disabled := disabled s; body_children := body_children s;
     stepTimer := stepTimer s; timers := timers s; object_urls := object_urls s;
     fresh := fresh s; inflight := inflight s; log := log s ++ [a];
     timeouts := timeouts s; copying := copying s |}.

Definition set_timeouts (t : gmap nat N) (s : state) : state :=
  {| tabs := tabs s; form := form s; classes := classes s; text := text s;
     disabled := disabled s; body_children := body_children s;
     stepTimer := stepTimer s; timers := timers s; object_urls := object_urls s;
     fresh := fresh s; inflight := inflight s; log := log s;
     timeouts := t; copying := copying s |}.

Definition set_copying (n : nat) (s : state) : state :=
  {| tabs := tabs s; form := form s; classes := classes s; text := text s;
     disabled := disabled s; body_children := body_children s;
     stepTimer := stepTimer s; timers := timers s; object_urls := object_urls s;
     fresh := fresh s; inflight := inflight s; log := log s;
     timeouts := timeouts s; copying := n |}.

(** ** The handler monad: state and exceptions *)

(** A thrown value: every value the script can catch is an Error object,
    of which it reads the [message]. *)
Record exn := Thrown { message : jsstring }.

Inductive result (A : Type) :=
  | Ok (a : A)
  | Throw (e : exn).
Arguments Ok {A} a.
Arguments Throw {A} e.

Definition js (A : Type) : Type := state -> result A * state.

#[export] Instance js_ret : MRet js := fun A a s => (Ok a, s).
#[export] Instance js_bind : MBind js := fun A B f m s =>
  match m s with
  | (Ok a, s') => f a s'
  | (Throw e, s') => (Throw e, s')
  end.
#[export] Instance js_throw : MThrow exn js := fun A e s => (Throw e, s).

Definition get_state : js state := fun s => (Ok s, s).
Definition modify (f : state -> state) : js unit := fun s => (Ok tt, f s).

(** [try { m } catch (err) { h err }] *)
Definition try_catch {A} (m : js A) (h : exn -> js A) : js A := fun s =>
  match m s with
  | (Ok a, s') => (Ok a, s')
  | (Throw e, s') => h e s'
  end.

(** [try { m } finally { f }]: [f] runs on both exits; the outcome is that
    of [m] unless [f] itself throws. *)
Definition finally {A} (m : js A) (f : js unit) : js A := fun s =>
  match m s with
  | (r, s') =>
    match f s' with
    | (Ok _, s'') => (r, s'')
    | (Throw e, s'') => (Throw e, s'')
    end
  end.

(** The state a handler leaves behind. *)
Definition run {A} (m : js A) (s : state) : state := snd (m s).

(** [l.forEach(f)] *)
Fixpoint forEach {A} (l : list A) (f : A -> js unit) : js unit :=
  match l with
  | [] => mret tt
  | x :: l' => f x;; forEach l' f
  end.

(** ** DOM and browser primitives *)

(** The class list of the element with a given id. *)
Definition classes_of (m : gmap string (gset string)) (id : string) : gset string :=
  default ∅ (m !! id).

Definition class_list (s : state) (id : string) : gset string :=
  classes_of (classes s) id.

Definition add_class (id c : string) (m : gmap string (gset string)) :
    gmap string (gset string) :=
  <[id := classes_of m id ∪ {[c]}]> m.

Definition remove_classes (id : string) (cs : list string) (m : gmap string (gset string)) :
    gmap string (gset string) :=
  <[id := classes_of m id ∖ list_to_set cs]> m.

(** [document.getElementById(id).classList.add(c)] *)
Definition classList_add (id c : string) : js unit :=
  modify (fun s => set_classes (add_class id c (classes s)) s).

(** [document.getElementById(id).classList.remove(c1, c2, ...)] *)
Definition classList_remove (id : string) (cs : list string) : js unit :=
  modify (fun s => set_classes (remove_classes id cs (classes s)) s).

(** [el.textContent = v] and [el.value = v] *)
Definition set_textContent (id : string) (v : jsstring) : js unit :=
  modify (fun s => set_text (<[id := v]> (text s)) s).

(** [el.disabled = b] *)
Definition set_button_disabled (id : string) (b : bool) : js unit :=
  modify (fun s => set_disabled (if b then disabled s ∪ {[id]} else disabled s ∖ {[id]}) s).

(** A handle no table uses yet. *)
Definition new_handle : js nat :=
  fun s => (Ok (fresh s), set_fresh (S (fresh s)) s).

(** [setInterval(callback, ms)], for the one callback the script registers
    (its captured [idx] starts at 0). *)
Definition setInterval (ms : N) : js nat :=
  t ← new_handle;
  modify (fun s => set_timers (<[t := {| delay := ms; idx := 0 |}]> (timers s)) s);;
  mret t.

(** [clearInterval(t)]: nothing happens for [null] or a timer that is not
    live. *)
Definition clearInterval (t : option nat) : js unit :=
  modify (fun s =>
    set_timers (match t with
                | Some t => delete t (timers s)
                | None => timers s
                end) s).

(** [setTimeout(callback, ms)], for the one callback the script registers
    with it (the reset of the copy button's label). *)
Definition setTimeout (ms : N) : js nat :=
  t ← new_handle;
  modify (fun s => set_timeouts (<[t := ms]> (timeouts s)) s);;
  mret t.

(** [navigator.clipboard.writeText(t)], up to the [await]: [call] is [Some e]
    when the call itself throws [e]; otherwise the write is started and
    stays pending until it settles. *)
Definition writeText (call : option exn) (t : jsstring) : js unit :=
  match call with
  | Some e => mthrow e
  | None => modify (fun s => add_log (AWriteText t) (set_copying (S (copying s)) s))
  end.

(** [document.getElementById(id).select()] *)
Definition select (id : string) : js unit :=
  modify (add_log (ASelect id)).

(** [document.execCommand(command)] *)
Definition execCommand (command : string) : js unit :=
  modify (add_log (AExecCommand command)).

(** [URL.createObjectURL(b)] *)
Definition createObjectURL (b : blob) : js nat :=
  u ← new_handle;
  modify (fun s => add_log (ACreateObjectURL u b) (set_object_urls (<[u := b]> (object_urls s)) s));;
  mret u.

(** [URL.revokeObjectURL(u)] *)
Definition revokeObjectURL (u : nat) : js unit :=
  modify (fun s => add_log (ARevokeObjectURL u) (set_object_urls (delete u (object_urls s)) s)).

(** [document.body.appendChild(a)], [a] being node [n] *)
Definition appendChild (n : nat) (a : anchor) : js unit :=
  modify (fun s => add_log (AAppendChild n) (set_body_children (body_children s ++ [(n, a)]) s)).

(** [document.body.removeChild(a)] *)
Definition removeChild (n : nat) : js unit :=
  modify (fun s =>
    add_log (ARemoveChild n)
      (set_body_children (List.filter (fun c => negb (Nat.eqb (fst c) n)) (body_children s)) s)).

(** [a.click()] *)
Definition click (a : anchor) : js unit :=
  modify (fun s => add_log (AClick a (href a ≫= fun u => object_urls s !! u)) s).

(** [fetch(url, {method, headers, body})], up to the [await]: the request
    leaves and stays pending until it settles. *)
Definition fetch (tr : trigger) (r : request) : js unit :=
  modify (fun s => add_log (AFetch r) (set_inflight (inflight s ++ [tr]) s)).

(** ** Responses *)

(** What the script can observe of a [Response]: the status, the headers it
    asks for (by the name it uses), and what reading the body as JSON or as
    a blob settles to ([inl] is a rejection). *)
Record response := {
  status : N;
  response_headers : gmap string jsstring;
  json_result : exn + json;
  blob_result : exn + blob;
}.

(** [resp.ok] *)
Definition ok (resp : response) : bool := in_range 200 299 (status resp).

(** [resp.headers.get(name)]: [null] ([None]) when the header is absent. *)
Definition headers_get (resp : response) (name : string) : option jsstring :=
  response_headers resp !! name.

(** What [await fetch(...)] settles to. *)
Inductive outcome :=
  | Rejected (e : exn)
  | Responded (resp : response).

(** [await p] for a promise whose settlement is known. *)
Definition await {A} (p : exn + A) : js A :=
  match p with
  | inl e => mthrow e
  | inr a => mret a
  end.

(** The messages of the errors that built-in operations throw; the language
    leaves them to the engine.  [setter_conversion attr] is the message of
    the TypeError that the setter of the DOM attribute [attr] throws when
    the value it is given cannot be converted to a string; the wording is
    the browser's, which may name the attribute, so it is kept apart from
    [not_primitive]. *)
Record engine := {
  uri_malformed : jsstring;
  null_property : string -> jsstring;
  not_primitive : jsstring;
  setter_conversion : string -> jsstring;
}.

(** ** The script *)

Section Script.

Context (E : engine).

(** [j.name], with the TypeError on [null]. *)
Definition property (j : json) (name : string) : js (option json) :=
  match get_property j name with
  | Some v => mret v
  | None => mthrow (Thrown (null_property E name))
  end.

(** Conversion to a string, with its TypeError. *)
Definition to_string (v : json) : js jsstring :=
  match ToString v with
  | Some s => mret s
  | None => mthrow (Thrown (not_primitive E))
  end.

(** Conversion to a string by the setter of the DOM attribute [attr], with
    its TypeError. *)
Definition to_dom_string (attr : string) (v : json) : js jsstring :=
  match ToString v with
  | Some s => mret s
  | None => mthrow (Thrown (setter_conversion E attr))
  end.

(** [v || d] *)
Definition or_value (v : option json) (d : json) : json :=
  match v with
  | Some x => if truthy v then x else d
  | None => d
  end.

(** *** Loading steps (lines 78-104) *)

Definition STEPS : list string := ["step-1"; "step-2"; "step-3"; "step-4"]%string.

(** [document.getElementById(STEPS[i])], as the receiver of [.classList]:
    out of range [STEPS[i]] is [undefined], no element has that id and the
    property access throws. *)
Definition step_element (i : nat) : js string :=
  match STEPS !! i with
  | Some id => mret id
  | None => mthrow (Thrown (null_property E "classList"))
  end.

Definition showLoading : js unit :=
  classList_remove "loading-overlay" ["hidden"%string];;
  forEach STEPS (fun s => classList_remove s ["active"; "done"]%string);;
  el ← step_element 0;
  classList_add el "active";;
  t ← setInterval 4000;
  modify (set_stepTimer (Some t)).

(** The callback of interval timer [t], run at each expiry of its delay. *)
Definition step_callback (t : nat) : js unit :=
  s ← get_state;
  match timers s !! t with
  | None => mret tt
  | Some tm =>
    if (idx tm <? length STEPS - 1)%nat then
      el ← step_element (idx tm);
      classList_remove el ["active"%string];;
      classList_add el "done";;
      modify (fun s => set_timers (<[t := {| delay := delay tm; idx := S (idx tm) |}]> (timers s)) s);;
      el' ← step_element (S (idx tm));
      classList_add el' "active"
    else mret tt
  end.

Definition hideLoading : js unit :=
  s ← get_state;
  clearInterval (stepTimer s);;
  classList_add "loading-overlay" "hidden";;
  forEach STEPS (fun s => classList_remove s ["active"; "done"]%string).

(** *** Messages (lines 133-152) *)

(** [`📄 ${pages} Page${pages !== 1 ? 's' : ''} · ATS Ready`]: the emoji is
    the surrogate pair D83D DCC4, the dot is U+00B7. *)
Definition page_badge (pages : jsnum) : jsstring :=
  [55357; 56516; 32] ++ number_to_string pages ++ lit " Page"
  ++ (if is_not_one pages then lit "s" else []) ++ [32; 183; 32] ++ lit "ATS Ready".

Definition showResults (summary : jsstring) (pages : jsnum) : js unit :=
  classList_remove "results-panel" ["hidden"%string];;
  set_textContent "changes-summary"
    (or_else (Some summary) (lit "Resume tailored successfully using Claude AI."));;
  set_textContent "page-badge" (page_badge pages).

Definition showError (msg : jsstring) : js unit :=
  classList_remove "error-panel" ["hidden"%string];;
  set_textContent "error-body" msg.

Definition hideMessages : js unit :=
  classList_add "results-panel" "hidden";;
  classList_add "error-panel" "hidden".

(** The click handler of the panel's close button. *)
Definition on_error_close : js unit := classList_add "error-panel" "hidden".

(** *** The two requests (lines 154-241) *)

Definition json_post (path : string) (data : payload) : request :=
  {| url := path;
     method := "POST";
     headers := [("Content-Type", "application/json")]%string;
     body := JSON_stringify data |}.

Definition endpoint (tr : trigger) : string :=
  match tr with
  | Generate => "/tailor"
  | Script => "/script"
  end.

(** Lines 174-178 and 223-227: the error thrown for a response that is not
    ok. *)
Definition throw_server_error {A} (resp : response) : js A :=
  let detail := JStr (lit "Server error " ++ decimal (status resp)) in
  detail ← try_catch
    (j ← await (json_result resp);
     d ← property j "detail";
     mret (or_value d detail))
    (fun _ => mret detail);
  msg ← to_string detail;
  mthrow (Thrown msg).

(** [collectFormData()] inside a handler. *)
Definition collect : js payload :=
  s ← get_state;
  match collectFormData s with
  | Some data => mret data
  | None => mthrow (Thrown (null_property E "value"))
  end.

(** The submit handler up to [await fetch('/tailor', ...)]. *)
Definition on_submit : js unit :=
  data ← collect;
  s ← get_state;
  match validate s data with
  | Some err => hideMessages;; showError err
  | None =>
    hideMessages;;
    showLoading;;
    set_button_disabled "generate-btn" true;;
    set_button_disabled "script-btn" true;;
    set_textContent "btn-label" (lit "Tailoring" ++ [8230]);;
    fetch Generate (json_post "/tailor" data)
  end.

(** The rest of the submit handler, once the request has settled to [o]. *)
Definition on_submit_settled (o : outcome) : js unit :=
  finally
    (try_catch
       (resp ← await (match o with Rejected e => inl e | Responded r => inr r end);
        if negb (ok resp) then throw_server_error resp
        else
          let pages := parseInt10 (or_else (headers_get resp "X-Pages") (lit "1")) in
          changes ← match decodeURIComponent (or_else (headers_get resp "X-Changes-Summary") []) with
                    | Some c => mret c
                    | None => mthrow (Thrown (uri_malformed E))
                    end;
          blob ← await (blob_result resp);
          url ← createObjectURL blob;
          n ← new_handle;
          let a := {| href := Some url;
                      download := Some (lit "Bharath_Kumar_Tailored_Resume.pdf") |} in
          appendChild n a;;
          click a;;
          removeChild n;;
          revokeObjectURL url;;
          showResults changes pages)
       (fun err =>
          showError (or_else (Some (message err))
                       (lit "An unexpected error occurred. Check the server logs."))))
    (hideLoading;;
     set_button_disabled "generate-btn" false;;
     set_button_disabled "script-btn" false;;
     set_textContent "btn-label" (lit "Generate Tailored PDF")).

(** The script button's click handler up to [await fetch('/script', ...)]. *)
Definition on_script_click : js unit :=
  data ← collect;
  s ← get_state;
  match validate s data with
  | Some err => hideMessages;; showError err
  | None =>
    hideMessages;;
    showLoading;;
    set_button_disabled "generate-btn" true;;
    set_button_disabled "script-btn" true;;
    fetch Script (json_post "/script" data)
  end.

(** The rest of the click handler. *)
Definition on_script_settled (o : outcome) : js unit :=
  finally
    (try_catch
       (resp ← await (match o with Rejected e => inl e | Responded r => inr r end);
        if negb (ok resp) then throw_server_error resp
        else
          json ← await (json_result resp);
          script ← property json "script";
          script ← to_dom_string "value" (or_value script (JStr []));
          set_textContent "script-output" script;;
          summary ← property json "changes_summary";
          summary ← to_dom_string "textContent" (or_value summary (JStr []));
          set_textContent "changes-modal-summary" summary;;
          classList_remove "script-modal" ["hidden"%string])
       (fun err =>
          showError (or_else (Some (message err))
                       (lit "Script generation failed. Check the server logs."))))
    (hideLoading;;
     set_button_disabled "generate-btn" false;;
     set_button_disabled "script-btn" false).

(** The continuation of the handler that [tr] started. *)
Definition on_settled (tr : trigger) (o : outcome) : js unit :=
  match tr with
  | Generate => on_submit_settled o
  | Script => on_script_settled o
  end.

(** The handler that [tr] starts. *)
Definition on_trigger (tr : trigger) : js unit :=
  match tr with
  | Generate => on_submit
  | Script => on_script_click
  end.

(** *** The event loop

    One event is handled at a time.  A disabled button dispatches nothing:
    the form is submitted through its submit button [generate-btn], and a
    click reaches the script button only while it is enabled.  A timer
    expires only while it is live, and only a pending request settles.
    [EvInput] is the user typing or switching tabs: it changes the inputs
    the handlers read and nothing else.

    Between [await fetch(...)] and the later [await]s of a handler (reading
    the body) the handler changes nothing and reads no state that another
    handler writes, so the continuation is run as one step. *)
Inductive event :=
  | EvInput (t : list tab) (f : gmap string jsstring)
  | EvSubmit
  | EvScriptClick
  | EvInterval (t : nat)
  | EvSettled (tr : trigger) (o : outcome)
  | EvErrorClose.

Definition enabled (s : state) (e : event) : Prop :=
  match e with
  | EvInput _ _ | EvErrorClose => True
  | EvSubmit => "generate-btn"%string ∉ disabled s
  | EvScriptClick => "script-btn"%string ∉ disabled s
  | EvInterval t => is_Some (timers s !! t)
  | EvSettled tr _ => tr ∈ inflight s
  end.

(** Taking one occurrence of [tr] off the pending requests. *)
Fixpoint settle (tr : trigger) (l : list trigger) : list trigger :=
  match l with
  | [] => []
  | x :: l' =>
    match x, tr with
    | Generate, Generate | Script, Script => l'
    | _, _ => x :: settle tr l'
    end
  end.

Definition handler (e : event) : js unit :=
  match e with
  | EvInput t f => modify (set_page t f)
  | EvSubmit => on_trigger Generate
  | EvScriptClick => on_trigger Script
  | EvInterval t => step_callback t
  | EvSettled tr o =>
    modify (fun s => set_inflight (settle tr (inflight s)) s);; on_settled tr o
  | EvErrorClose => on_error_close
  end.

Inductive step : state -> state -> Prop :=
  | step_event s e : enabled s e -> step s (run (handler e) s).

(** The page once the script has loaded: no timer, nothing pending, both
    buttons enabled. *)
Definition loaded (s : state) : Prop :=
  timers s = ∅ ∧ inflight s = [] ∧ disabled s = ∅.

Inductive reachable : state -> Prop :=
  | reachable_loaded s : loaded s -> reachable s
  | reachable_step s s' : reachable s -> step s s' -> reachable s'.

End Script.

(** ** The handlers outside the request flow *)

(** *** Tabs (lines 61-70) *)

(** The key under which [classes] holds the element of id [x]: the ids of
    the page are its keys, read as strings of code units below 256, so an id
    with any other code unit names no element. *)
Fixpoint element_id (x : jsstring) : option string :=
  match x with
  | [] => Some EmptyString
  | c :: r => if c <? 256 then String (ascii_of_N c) <$> element_id r else None
  end.

(** [`${x}`] for a string or [undefined]. *)
Definition template_string (x : option jsstring) : jsstring :=
  default (lit "undefined") x.

Definition map_tab_classes (f : gset string -> gset string) (t : tab) : tab :=
  {| tab_classList := f (tab_classList t); tab_dataset_tab := tab_dataset_tab t |}.

(** [el.classList.remove('active')] for every element matching [.cls], among
    the tab elements and among the elements held by id. *)
Definition remove_active_where (cls : string) (c : gset string) : gset string :=
  if bool_decide (cls ∈ c) then c ∖ {["active"%string]} else c.

Definition remove_active_from_all (cls : string) : js unit :=
  modify (fun s =>
    set_classes (remove_active_where cls <$> classes s)
      (set_page (map_tab_classes (remove_active_where cls) <$> tabs s) (form s) s)).

(** [document.getElementById(x)] as the receiver of [.classList], for a
    computed id: an element exists when [classes] binds its key; otherwise
    the result is [null] and the access throws. *)
Definition element_by_id (E : engine) (x : jsstring) : js string :=
  s ← get_state;
  match element_id x with
  | Some k =>
    if bool_decide (is_Some (classes s !! k)) then mret k
    else mthrow (Thrown (null_property E "classList"))
  | None => mthrow (Thrown (null_property E "classList"))
  end.

(** The click handler of the tab bar.  [hit] is what
    [e.target.closest('.tab')] finds: the index in [tabs] of a tab element,
    or nothing ([null]) for a click outside every tab.  The tab elements are
    not among the elements held by id. *)
Definition on_tab_click (E : engine) (hit : option nat) : js unit :=
  s ← get_state;
  match hit ≫= (fun i => tabs s !! i) with
  | None => mret tt
  | Some tab =>
    if bool_decide ("tab"%string ∈ tab_classList tab) then
      let target := tab_dataset_tab tab in
      remove_active_from_all "tab";;
      remove_active_from_all "tab-pane";;
      modify (fun s =>
        set_page (alter (map_tab_classes (fun c => c ∪ {["active"%string]}))
                    (default 0%nat hit) (tabs s)) (form s) s);;
      pane ← element_by_id E (lit "tab-" ++ template_string target);
      classList_add pane "active"
    else mret tt
  end.

(** *** The script modal (lines 243-247 and 272-275) *)

Definition on_modal_close : js unit := classList_add "script-modal" "hidden".

(** [if (e.target === scriptModal) ...]: the click landed on the backdrop
    itself or on something inside it. *)
Definition on_modal_click (target_is_modal : bool) : js unit :=
  if target_is_modal then classList_add "script-modal" "hidden" else mret tt.

(** [if (e.key === 'Escape') ...] *)
Definition on_keydown (key : jsstring) : js unit :=
  if bool_decide (key = lit "Escape") then classList_add "script-modal" "hidden"
  else mret tt.

(** *** Saving the script (lines 260-270) *)

(** The [value] getter of a textarea: the value that was set, with every
    CR LF pair and every other CR turned into LF. *)
Fixpoint normalize_newlines (s : jsstring) : jsstring :=
  match s with
  | [] => []
  | 13 :: r =>
    10 :: match r with
          | 10 :: r' => normalize_newlines r'
          | _ => normalize_newlines r
          end
  | c :: r => c :: normalize_newlines r
  end.

(** The code points of a string as a Blob part takes it: a surrogate pair
    is one code point, a lone surrogate becomes U+FFFD. *)
Fixpoint code_points (s : jsstring) : list N :=
  match s with
  | [] => []
  | c :: r =>
    if is_high_surrogate c then
      match r with
      | d :: r' =>
        if is_low_surrogate d
        then (65536 + (c - 55296) * 1024 + (d - 56320)) :: code_points r'
        else 65533 :: code_points r
      | [] => [65533]
      end
    else if is_low_surrogate c then 65533 :: code_points r
    else c :: code_points r
  end.

Definition utf8_of_code_point (cp : N) : list N :=
  if cp <? 128 then [cp]
  else if cp <? 2048 then [192 + cp / 64; 128 + cp mod 64]
  else if cp <? 65536 then [224 + cp / 4096; 128 + cp / 64 mod 64; 128 + cp mod 64]
  else [240 + cp / 262144; 128 + cp / 4096 mod 64; 128 + cp / 64 mod 64; 128 + cp mod 64].

Definition byte_of_N (n : N) : Byte.byte := default Byte.x00 (Byte.of_N n).

(** The bytes of [new Blob([s])]: the UTF-8 encoding of [s]. *)
Definition utf8_encode (s : jsstring) : blob :=
  byte_of_N <$> (code_points s ≫= utf8_of_code_point).

Definition py_name : jsstring := lit "Bharath_Kumar_Tailored_Resume.py".

(** The click handler of the download button of the modal. *)
Definition on_download_script : js unit :=
  s ← get_state;
  let value := normalize_newlines (default [] (text s !! "script-output"%string)) in
  url ← createObjectURL (utf8_encode value);
  n ← new_handle;
  let a := {| href := Some url; download := Some py_name |} in
  appendChild n a;;
  click a;;
  removeChild n;;
  revokeObjectURL url.

(** *** The copy button (lines 249-258)

    The handler is split at its [await], like the two request handlers.
    [call] is what calling [navigator.clipboard.writeText] does on this
    page: it throws where there is no [navigator.clipboard] ([Some e]), and
    otherwise starts a write.  [o] is how a started write settles ([Some e]
    is a rejection).  The exception caught is not looked at. *)
Definition copy_fallback : js unit :=
  select "script-output";;
  execCommand "copy".

Definition on_copy_click (call : option exn) : js unit :=
  try_catch
    (s ← get_state;
     writeText call (normalize_newlines (default [] (text s !! "script-output"%string))))
    (fun _ => copy_fallback).

Definition on_copy_settled (o : option exn) : js unit :=
  try_catch
    (match o with
     | None => mret tt
     | Some e => mthrow e
     end;;
     set_textContent "copy-script-btn" ([10003] ++ lit " Copied!");;
     setTimeout 2000;;
     mret tt)
    (fun _ => copy_fallback).

(** The callback given to [setTimeout]; [t] is the timer that expires. *)
Definition copy_label_reset (t : nat) : js unit :=
  modify (fun s => set_timeouts (delete t (timeouts s)) s);;
  set_textContent "copy-script-btn" (lit "Copy").

(** *** All events of the page

    The events of the request flow together with the ones above.  A tab
    click reports a tab element only if there is one at that index, a
    clipboard write settles only while one is pending, and a one-shot timer
    expires only while it is live.  The reset button writes the textarea
    [base_script] of the form: it is one of the changes [EvInput] stands
    for. *)
Inductive ui_event :=
  | UiRequest (e : event)
  | UiTabClick (hit : option nat)
  | UiModalClose
  | UiModalClick (target_is_modal : bool)
  | UiKeydown (key : jsstring)
  | UiDownloadScript
  | UiCopyClick (call : option exn)
  | UiCopySettled (o : option exn)
  | UiTimeout (t : nat).

Definition ui_enabled (s : state) (e : ui_event) : Prop :=
  match e with
  | UiRequest e => enabled s e
  | UiTabClick (Some i) => ∃ t, tabs s !! i = Some t ∧ "tab"%string ∈ tab_classList t
  | UiCopySettled _ => copying s ≠ 0%nat
  | UiTimeout t => is_Some (timeouts s !! t)
  | _ => True
  end.

Definition ui_handler (E : engine) (e : ui_event) : js unit :=
  match e with
  | UiRequest e => handler E e
  | UiTabClick hit => on_tab_click E hit
  | UiModalClose => on_modal_close
  | UiModalClick b => on_modal_click b
  | UiKeydown key => on_keydown key
  | UiDownloadScript => on_download_script
  | UiCopyClick call => on_copy_click call
  | UiCopySettled o =>
    modify (fun s => set_copying (pred (copying s)) s);; on_copy_settled o
  | UiTimeout t => copy_label_reset t
  end.

(** ** Vocabulary of the statements *)

(** The input called [name] is absent or empty once trimmed. *)
Definition blank (s : state) (name : string) : Prop :=
  trimmed s name = None ∨ trimmed s name = Some [].

(** A tab element carries the class ['active']: [querySelector] finds one. *)
Definition has_active_tab (s : state) : Prop :=
  is_Some (List.find is_active_tab (tabs s)).

(** [id] carries class [c]. *)
Definition has_class (s : state) (id c : string) : Prop := c ∈ class_list s id.

(** The text shown in the element [id] (the empty string before any is
    set). *)
Definition text_of (s : state) (id : string) : jsstring := default [] (text s !! id).

(** The file downloads among a list of actions: the clicks on an anchor
    that has a [download] attribute and whose [href] resolves to a blob. *)
Definition downloads (l : list action) : list (blob * jsstring) :=
  omap (fun a =>
          match a with
          | AClick {| download := Some name |} (Some b) => Some (b, name)
          | _ => None
          end) l.

(** A request fails: [fetch] rejects, or the response is not ok. *)
Definition failed (o : outcome) : Prop :=
  match o with
  | Rejected _ => True
  | Responded resp => ok resp = false
  end.

(** The requests among a list of actions. *)
Definition requests (l : list action) : list request :=
  omap (fun a => match a with AFetch r => Some r | _ => None end) l.

(** Messages of one engine (V8, and Chromium's prefix for the errors of DOM
    setters), for the examples; none of them reads [setter_conversion]. *)
Definition v8 : engine :=
  {| uri_malformed := lit "URI malformed";
     null_property := fun name =>
       lit "Cannot read properties of null (reading '" ++ lit name ++ lit "')";
     not_primitive := lit "Cannot convert object to primitive value";
     setter_conversion := fun attr =>
       lit "Failed to set the '" ++ lit attr ++ lit "' property on '"
       ++ lit (if String.eqb attr "textContent" then "Node" else "HTMLTextAreaElement")
       ++ lit "': Cannot convert object to primitive value" |}.

(** A page for the examples: two tabs, the first one active, and a form
    filled with [f]; nothing has happened yet. *)
Definition tab_button (active : bool) (name : string) : tab :=
  {| tab_classList := if active then {["tab"; "active"]}%string else {["tab"]}%string;
     tab_dataset_tab := Some (lit name) |}.

Definition page (t : list tab) (f : list (string * jsstring)) : state :=
  {| tabs := t; form := list_to_map f; classes := ∅; text := ∅; disabled := ∅;
     body_children := []; stepTimer := None; timers := ∅; object_urls := ∅;
     fresh := 0; inflight := []; log := []; timeouts := ∅; copying := 0 |}.

Definition paste_page (f : list (string * jsstring)) : state :=
  page [tab_button true "paste"; tab_button false "api"] f.

Definition api_page (f : list (string * jsstring)) : state :=
  page [tab_button false "paste"; tab_button true "api"] f.

(** The paste tab is active and the description holds only white space;
    the candidate's name is blank too. *)
Definition blank_paste_page : state :=
  paste_page [("base_script"%string, lit "story = []");
              ("jd_raw"%string, lit "  ");
              ("candidate_name"%string, [9; 32])].

Definition blank_paste_data : payload :=
  {| base_script := lit "story = []"; jd_api_endpoint := []; jd_api_key := [];
     job_id := []; jd_raw := []; candidate_name := lit "BHARATH KUMAR RAJESH";
     target_role := []; company_name := [] |}.

(** The API tab is active, with text left in the description of the other
    tab. *)
Definition filled_api_page : state :=
  api_page [("base_script"%string, lit "story = []");
            ("jd_raw"%string, lit "left over from the other tab");
            ("jd_api_endpoint"%string, lit "https://jobs.example");
            ("job_id"%string, lit " 42 ")].

Definition filled_api_data : payload :=
  {| base_script := lit "story = []"; jd_api_endpoint := lit "https://jobs.example";
     jd_api_key := []; job_id := lit "42"; jd_raw := [];
     candidate_name := lit "BHARATH KUMAR RAJESH";
     target_role := []; company_name := [] |}.

(** The animation shows step [k]: of the four step elements, exactly the
    one of index [k] is marked ['active'] and exactly those before it are
    marked ['done']. *)
Definition shows_step (s : state) (k : nat) : Prop :=
  ∀ i id, STEPS !! i = Some id ->
    (has_class s id "active" <-> i = k) ∧ (has_class s id "done" <-> (i < k)%nat).

(** No step element is marked. *)
Definition steps_reset (s : state) : Prop :=
  ∀ id, id ∈ STEPS -> ¬ has_class s id "active" ∧ ¬ has_class s id "done".

(** What holds between events: either nothing is pending and no timer is
    live, or one request is pending, both buttons are disabled, and the one
    live timer is [stepTimer], set to 4000 ms, its [idx] being the step the
    animation shows. *)
Definition idle (s : state) : Prop :=
  inflight s = [] ∧ timers s = ∅.

Definition loading (s : state) : Prop :=
  ∃ tr t tm,
    inflight s = [tr] ∧ stepTimer s = Some t ∧ timers s = {[t := tm]}
    ∧ delay tm = 4000 ∧ (idx tm < length STEPS)%nat ∧ shows_step s (idx tm)
    ∧ "generate-btn"%string ∈ disabled s ∧ "script-btn"%string ∈ disabled s.

Definition consistent (s : state) : Prop := idle s ∨ loading s.

(** The [detail] member of the error body: present when the body parses to
    a JSON object that has such a member. *)
Definition detail_member (resp : response) : option json :=
  match json_result resp with
  | inr (JObj members) => own_property members (lit "detail")
  | _ => None
  end.

(** The fallback text of a response that is not ok. *)
Definition server_error_text (resp : response) : jsstring :=
  lit "Server error " ++ decimal (status resp).

(** The fixed message of each handler's [catch]. *)
Definition generic_message (tr : trigger) : jsstring :=
  match tr with
  | Generate => lit "An unexpected error occurred. Check the server logs."
  | Script => lit "Script generation failed. Check the server logs."
  end.

(** The message of the error thrown for a response that is not ok: the
    [detail] member converted to a string when it is truthy (the engine's
    TypeError message when it cannot be converted), the server-error text
    otherwise. *)
Definition server_failure_text (E : engine) (resp : response) : jsstring :=
  match detail_member resp with
  | Some v =>
    if truthy (Some v) then default (not_primitive E) (ToString v)
    else server_error_text resp
  | None => server_error_text resp
  end.

(** The text a failed request is reported with: the error's own message for
    a rejected [fetch], the one above for a response that is not ok, and
    the handler's fixed message instead of an empty text. *)
Definition reported_text (E : engine) (tr : trigger) (o : outcome) : jsstring :=
  or_else
    (Some match o with
          | Rejected e => message e
          | Responded resp => server_failure_text E resp
          end)
    (generic_message tr).

(** The name the generated file is saved under. *)
Definition pdf_name : jsstring := lit "Bharath_Kumar_Tailored_Resume.pdf".

(** The paste tab is active and filled in. *)
Definition filled_paste_page : state :=
  paste_page [("base_script"%string, lit "story = []");
              ("jd_raw"%string, lit "Rust engineer");
              ("target_role"%string, lit "Engineer")].

Definition filled_paste_data : payload :=
  {| base_script := lit "story = []"; jd_api_endpoint := []; jd_api_key := [];
     job_id := []; jd_raw := lit "Rust engineer";
     candidate_name := lit "BHARATH KUMAR RAJESH";
     target_role := lit "Engineer"; company_name := [] |}.

(** That page while its generate request is pending. *)
Definition loading_page : state := run (on_trigger v8 Generate) filled_paste_page.

(** A 422 response in the style of a validation failure: [detail] is a list
    of objects. *)
Definition validation_error : response :=
  {| status := 422;
     response_headers := ∅;
     json_result :=
       inr (JObj [(lit "detail", JArr [JObj [(lit "msg", JStr (lit "field required"))]])]);
     blob_result := inr [] |}.

(** A 404 response with a textual [detail]. *)
Definition not_found : response :=
  {| status := 404;
     response_headers := ∅;
     json_result := inr (JObj [(lit "detail", JStr (lit "Job not found"))]);
     blob_result := inr [] |}.

(** A 200 response carrying a file and the two headers. *)
Definition pdf_bytes : blob := [Byte.x25; Byte.x50; Byte.x44; Byte.x46].

Definition tailored (hs : list (string * jsstring)) : response :=
  {| status := 200;
     response_headers := list_to_map hs;
     json_result := inl (Thrown (lit "Unexpected token '%'"));
     blob_result := inr pdf_bytes |}.

(** A 200 response to the script request. *)
Definition scripted : response :=
  {| status := 200;
     response_headers := ∅;
     json_result :=
       inr (JObj [(lit "script", JStr (lit "story = [1]"));
                  (lit "changes_summary", JStr (lit "Reordered skills"))]);
     blob_result := inr [] |}.

(** A string does not begin or end with white space. *)
Definition no_outer_space (x : jsstring) : Prop :=
  (∀ c, head x = Some c -> is_js_space c = false)
  ∧ (∀ c, last x = Some c -> is_js_space c = false).

(** [x] is [y] with the white space of both ends taken off. *)
Definition stripped_of (x y : jsstring) : Prop :=
  ∃ p q, y = p ++ x ++ q
         ∧ Forall (fun c => is_js_space c = true) p
         ∧ Forall (fun c => is_js_space c = true) q
         ∧ no_outer_space x.

(** The number a decimal numeral stands for, read from the left. *)
Fixpoint uint_value (acc : N) (d : Decimal.uint) : N :=
  match d with
  | Decimal.Nil => acc
  | Decimal.D0 d => uint_value (10 * acc) d
  | Decimal.D1 d => uint_value (10 * acc + 1) d
  | Decimal.D2 d => uint_value (10 * acc + 2) d
  | Decimal.D3 d => uint_value (10 * acc + 3) d
  | Decimal.D4 d => uint_value (10 * acc + 4) d
  | Decimal.D5 d => uint_value (10 * acc + 5) d
  | Decimal.D6 d => uint_value (10 * acc + 6) d
  | Decimal.D7 d => uint_value (10 * acc + 7) d
  | Decimal.D8 d => uint_value (10 * acc + 8) d
  | Decimal.D9 d => uint_value (10 * acc + 9) d
  end.


(** The three ways of closing the modal. *)
Definition closes_modal (m : js unit) : Prop :=
  m = on_modal_close ∨ m = on_modal_click true ∨ m = on_keydown (lit "Escape").

(** One event of the page. *)
Inductive ui_step (E : engine) : state -> state -> Prop :=
  | ui_step_event s e : ui_enabled s e -> ui_step E s (run (ui_handler E e) s).

(** A page as it is served: loaded, with the overlay hidden, at most one of
    the two message panels visible, no object URL and no anchor of the
    script's in the body. *)
Definition clean (s : state) : Prop :=
  loaded s ∧ object_urls s = ∅ ∧ body_children s = []
  ∧ has_class s "loading-overlay" "hidden"
  ∧ (has_class s "results-panel" "hidden" ∨ has_class s "error-panel" "hidden").

Inductive ui_reachable (E : engine) : state -> Prop :=
  | ui_reachable_clean s : clean s -> ui_reachable E s
  | ui_reachable_step s s' : ui_reachable E s -> ui_step E s s' -> ui_reachable E s'.

(** No request is pending. *)
Definition quiet (s : state) : Prop :=
  inflight s = [] ∧ timers s = ∅
  ∧ ("generate-btn"%string ∉ disabled s) ∧ ("script-btn"%string ∉ disabled s)
  ∧ has_class s "loading-overlay" "hidden"
  ∧ (has_class s "results-panel" "hidden" ∨ has_class s "error-panel" "hidden").

(** One request is pending. *)
Definition busy (s : state) : Prop :=
  ∃ tr t tm,
    inflight s = [tr] ∧ stepTimer s = Some t ∧ timers s = {[t := tm]}
    ∧ delay tm = 4000
    ∧ "generate-btn"%string ∈ disabled s ∧ "script-btn"%string ∈ disabled s
    ∧ ¬ has_class s "loading-overlay" "hidden"
    ∧ has_class s "results-panel" "hidden" ∧ has_class s "error-panel" "hidden".

Definition tidy (s : state) : Prop :=
  object_urls s = ∅ ∧ body_children s = [] ∧ (quiet s ∨ busy s).

(** The request a trigger sends from [s]: the payload of the form, if it can
    be read and [validate] accepts it. *)
Definition accepted_request (s : state) (tr : trigger) : list request :=
  match collectFormData s with
  | Some data =>
    match validate s data with
    | None => [json_post (endpoint tr) data]
    | Some _ => []
    end
  | None => []
  end.

(** The requests event [e] sends from [s]. *)
Definition outgoing (s : state) (e : ui_event) : list request :=
  match e with
  | UiRequest EvSubmit => accepted_request s Generate
  | UiRequest EvScriptClick => accepted_request s Script
  | _ => []
  end.

(** The files event [e] saves from [s]. *)
Definition saved (s : state) (e : ui_event) : list (blob * jsstring) :=
  match e with
  | UiRequest (EvSettled Generate (Responded resp)) =>
    if ok resp then
      match decodeURIComponent (or_else (headers_get resp "X-Changes-Summary") []),
            blob_result resp with
      | Some _, inr b => [(b, pdf_name)]
      | _, _ => []
      end
    else []
  | UiDownloadScript =>
    [(utf8_encode (normalize_newlines (text_of s "script-output")), py_name)]
  | _ => []
  end.

(** The filled paste page as it is served: overlay, panels and modal
    hidden, the paste pane active. *)
Definition served_page : state :=
  set_classes
    (list_to_map
       [("loading-overlay", {["hidden"]}); ("results-panel", {["hidden"]});
        ("error-panel", {["hidden"]}); ("script-modal", {["hidden"]});
        ("tab-paste", {["tab-pane"; "active"]}); ("tab-api", {["tab-pane"]})]%string)
    filled_paste_page.

(** That page while its generate request is pending, and once a usable
    response has arrived. *)
Definition served_loading : state :=
  run (ui_handler v8 (UiRequest EvSubmit)) served_page.

Definition served_done : state :=
  run (ui_handler v8 (UiRequest (EvSettled Generate (Responded (tailored [])))))
    served_loading.

(** The served page once the copy button has been clicked and the clipboard
    write has succeeded: the label's reset is scheduled. *)
Definition served_copied : state :=
  run (ui_handler v8 (UiCopySettled None))
    (run (ui_handler v8 (UiCopyClick None)) served_page).

(** A page whose form lacks the [base_script] control. *)
Definition scriptless_page : state :=
  paste_page [("jd_raw"%string, lit "Rust engineer")].

(** A 200 script response whose summary cannot be converted to a string. *)
Definition odd_summary : response :=
  {| status := 200;
     response_headers := ∅;
     json_result :=
       inr (JObj [(lit "script", JStr (lit "story = [1]"));
                  (lit "changes_summary", JObj [(lit "toString", JNull)])]);
     blob_result := inr [] |}.

(** A 200 script response with a body of the given JSON value. *)
Definition script_body (j : json) : response :=
  {| status := 200; response_headers := ∅; json_result := inr j;
     blob_result := inr [] |}.

(** The payload of the served page once the API tab is selected. *)
Definition blank_data_of_served : payload :=
  {| base_script := lit "story = []"; jd_api_endpoint := []; jd_api_key := [];
     job_id := []; jd_raw := []; candidate_name := lit "BHARATH KUMAR RAJESH";
     target_role := lit "Engineer"; company_name := [] |}.

(** *** The JSON text of a request body

    A reader of JSON texts (ECMA-404) for an object whose members are
    strings, written without white space: what the receiving end makes of a
    request body.  It is written from the JSON grammar, not from
    [JSON_stringify]. *)
Definition hex4 (a b c d : N) : option N :=
  a ← hex_value a; b ← hex_value b; c ← hex_value c; d ← hex_value d;
  Some (4096 * a + 256 * b + 16 * c + d).

(** The character a two-character escape stands for. *)
Definition escaped (e : N) : option N :=
  if e =? 34 then Some 34
  else if e =? 92 then Some 92
  else if e =? 47 then Some 47
  else if e =? 98 then Some 8
  else if e =? 102 then Some 12
  else if e =? 110 then Some 10
  else if e =? 114 then Some 13
  else if e =? 116 then Some 9
  else None.

(** The characters of a string up to its closing quote, and the text that
    follows the quote. *)
Fixpoint read_chars (s : jsstring) : option (jsstring * jsstring) :=
  match s with
  | [] => None
  | c :: r =>
    if c =? 34 then Some ([], r)
    else if c =? 92 then
      match r with
      | [] => None
      | e :: r1 =>
        if e =? 117 then
          match r1 with
          | h1 :: h2 :: h3 :: h4 :: r2 =>
            u ← hex4 h1 h2 h3 h4;
            '(t, rest) ← read_chars r2;
            Some (u :: t, rest)
          | _ => None
          end
        else
          u ← escaped e;
          '(t, rest) ← read_chars r1;
          Some (u :: t, rest)
      end
    else if c <? 32 then None
    else
      '(t, rest) ← read_chars r;
      Some (c :: t, rest)
  end.

Definition read_string (s : jsstring) : option (jsstring * jsstring) :=
  match s with
  | c :: r => if c =? 34 then read_chars r else None
  | [] => None
  end.

(** [name:value] *)
Definition read_member (s : jsstring) : option ((jsstring * jsstring) * jsstring) :=
  '(k, r) ← read_string s;
  match r with
  | c :: r' =>
    if c =? 58 then '(v, rest) ← read_string r'; Some ((k, v), rest) else None
  | [] => None
  end.

(** Members separated by commas, up to the closing brace that ends the
    text. *)
Fixpoint read_members (fuel : nat) (s : jsstring) : option (list (jsstring * jsstring)) :=
  match fuel with
  | O => None
  | S fuel =>
    '(m, r) ← read_member s;
    match r with
    | c :: r' =>
      if c =? 125 then match r' with [] => Some [m] | _ => None end
      else if c =? 44 then l ← read_members fuel r'; Some (m :: l)
      else None
    | [] => None
    end
  end.

Definition read_object (s : jsstring) : option (list (jsstring * jsstring)) :=
  match s with
  | c :: r => if c =? 123 then read_members (length r) r else None
  | [] => None
  end.

(** The members of the payload, in the order of the object literal. *)
Definition members_of (data : payload) : list (jsstring * jsstring) :=
  [(lit "base_script", base_script data);
   (lit "jd_api_endpoint", jd_api_endpoint data);
   (lit "jd_api_key", jd_api_key data);
   (lit "job_id", job_id data);
   (lit "jd_raw", jd_raw data);
   (lit "candidate_name", candidate_name data);
   (lit "target_role", target_role data);
   (lit "company_name", company_name data)].

(** Every string of the payload is a JavaScript string: its code units are
    below [2^16]. *)
Definition code_units (data : payload) : Prop :=
  Forall (fun m => Forall (fun c => c < 65536) m.2) (members_of data).

(** A code unit [JSON.stringify] copies as it is, and a payload made of
    such code units. *)
Definition plain_unit (c : N) : bool :=
  (32 <=? c) && negb (c =? 34) && negb (c =? 92) && negb (in_range 55296 57343 c).

Definition plain (data : payload) : Prop :=
  Forall (fun m => Forall (fun c => plain_unit c = true) m.2) (members_of data).

(** [s] between double quotes. *)
Definition quoted (s : jsstring) : jsstring := [34] ++ s ++ [34].

(** The paste tab filled with a description of two lines. *)
Definition two_line_page : state :=
  paste_page [("base_script"%string, lit "story = []");
              ("jd_raw"%string, lit "Rust" ++ [10] ++ lit "engineer  ")].

Definition two_line_data : payload :=
  {| base_script := lit "story = []"; jd_api_endpoint := []; jd_api_key := [];
     job_id := []; jd_raw := lit "Rust" ++ [10] ++ lit "engineer";
     candidate_name := lit "BHARATH KUMAR RAJESH";
     target_role := []; company_name := [] |}.

(** * Properties *)

#[global] Arguments lit : simpl never.
#[global] Arguments or_else : simpl never.
#[global] Arguments decimal : simpl never.
#[global] Arguments trim : simpl never.
#[global] Arguments parseInt10 : simpl never.
#[global] Arguments decodeURIComponent : simpl never.
#[global] Arguments ToString : simpl never.
#[global] Arguments JSON_stringify : simpl never.
#[global] Arguments page_badge : simpl never.
#[global] Arguments add_class : simpl never.
#[global] Arguments remove_classes : simpl never.
#[global] Arguments in_range : simpl never.
#[global] Arguments truthy : simpl never.
#[global] Arguments or_value : simpl never.

(** ** Class lists under [add] and [remove] *)

Lemma classes_of_add_eq id c m :
  classes_of (add_class id c m) id = classes_of m id ∪ {[c]}.
Proof. unfold add_class, classes_of at 1. by rewrite lookup_insert_eq. Qed.

Lemma classes_of_add_ne id id' c m :
  id ≠ id' -> classes_of (add_class id c m) id' = classes_of m id'.
Proof. intros. unfold add_class, classes_of at 1. by rewrite lookup_insert_ne. Qed.

Lemma classes_of_remove_eq id cs m :
  classes_of (remove_classes id cs m) id = classes_of m id ∖ list_to_set cs.
Proof. unfold remove_classes, classes_of at 1. by rewrite lookup_insert_eq. Qed.

Lemma classes_of_remove_ne id id' cs m :
  id ≠ id' -> classes_of (remove_classes id cs m) id' = classes_of m id'.
Proof. intros. unfold remove_classes, classes_of at 1. by rewrite lookup_insert_ne. Qed.

Ltac classes_simpl :=
  unfold class_list; cbn;
  repeat first [ rewrite classes_of_add_eq | rewrite classes_of_remove_eq
               | rewrite classes_of_add_ne by done
               | rewrite classes_of_remove_ne by done ].

(** Unfolding a handler down to the state updates it performs. *)
Ltac js_unfold :=
  unfold run, on_settled, on_trigger, on_submit, on_script_click, on_submit_settled, on_script_settled,
    on_error_close, collect, showLoading, hideLoading,
    showResults, showError, hideMessages, step_callback, step_element, property,
    to_string, to_dom_string, await, setInterval, clearInterval, setTimeout,
    writeText, select, execCommand, createObjectURL,
    revokeObjectURL, appendChild, removeChild, click, fetch, new_handle,
    classList_add, classList_remove, set_textContent, set_button_disabled,
    finally, try_catch, forEach, mbind, mret, mthrow, js_bind, js_ret, js_throw,
    modify, get_state in *.

(** ** Reading the form *)

Lemma or_else_blank s name d : blank s name -> or_else (trimmed s name) d = d.
Proof. by intros [-> | ->]. Qed.

Lemma or_else_not_blank s name d : ¬ blank s name -> or_else (trimmed s name) d ≠ [].
Proof.
  unfold blank. destruct (trimmed s name) as [[|c v]|]; cbn; intros H; try done.
  - destruct H; by right.
  - destruct H; by left.
Qed.

Lemma strict_eq_true x l : strict_eq x l = true <-> x = Some (lit l).
Proof. unfold strict_eq. by rewrite bool_decide_eq_true. Qed.

Lemma strict_eq_false x l : strict_eq x l = false <-> x ≠ Some (lit l).
Proof. unfold strict_eq. by rewrite bool_decide_eq_false. Qed.

Lemma strict_eq_self l : strict_eq (Some (lit l)) l = true.
Proof. by apply strict_eq_true. Qed.

Lemma api_is_not_paste : strict_eq (Some (lit "api")) "paste" = false.
Proof. reflexivity. Qed.

Lemma paste_is_not_api : strict_eq (Some (lit "paste")) "api" = false.
Proof. reflexivity. Qed.

Lemma is_empty_true x : is_empty x = true <-> x = [].
Proof. by destruct x. Qed.

(** C1: for a payload built from the form, [validate] returns the paste
    message when the active tab is ['paste'] and the trimmed job description
    is empty, the API message when the active tab is ['api'] and the trimmed
    job identifier is empty, and [null] in every other case with an active
    tab. *)
Theorem validate_by_active_tab (s : state) (data : payload) :
  collectFormData s = Some data ->
  (activeTab s = Some (lit "paste") -> blank s "jd_raw" ->
   validate s data = Some (lit "Please paste a job description."))
  ∧ (activeTab s = Some (lit "api") -> blank s "job_id" ->
     validate s data = Some (lit "Please enter a Job ID or Job URL."))
  ∧ (has_active_tab s ->
     ¬ (activeTab s = Some (lit "paste") ∧ blank s "jd_raw") ->
     ¬ (activeTab s = Some (lit "api") ∧ blank s "job_id") ->
     validate s data = None).
Proof.
  unfold collectFormData, validate.
  destruct (trimmed s "base_script") as [script|]; [|done].
  intros [= <-]; cbn. repeat split.
  - intros Ht Hb. rewrite Ht, strict_eq_self. by rewrite or_else_blank.
  - intros Ht Hb. rewrite Ht, api_is_not_paste, strict_eq_self.
    by rewrite or_else_blank.
  - intros _ Hp Ha.
    destruct (strict_eq (activeTab s) "paste") eqn:Tp.
    + apply strict_eq_true in Tp. rewrite Tp. cbn.
      destruct (or_else (trimmed s "jd_raw") []) eqn:Hr; [|done].
      destruct Hp. split; [done|].
      destruct (decide (blank s "jd_raw")) as [|Hn]; [done|].
      by apply (or_else_not_blank _ _ []) in Hn.
    + cbn. destruct (strict_eq (activeTab s) "api") eqn:Ta; [|done].
      apply strict_eq_true in Ta. cbn.
      destruct (or_else (trimmed s "job_id") []) eqn:Hr; [|done].
      destruct Ha. split; [done|].
      destruct (decide (blank s "job_id")) as [|Hn]; [done|].
      by apply (or_else_not_blank _ _ []) in Hn.
Qed.

Lemma validate_by_active_tab_witness :
  collectFormData blank_paste_page = Some blank_paste_data
  ∧ validate blank_paste_page blank_paste_data
    = Some (lit "Please paste a job description.").
Proof.
  split; [reflexivity|].
  apply (validate_by_active_tab blank_paste_page blank_paste_data).
  - reflexivity.
  - reflexivity.
  - right. reflexivity.
Defined.

(** C4: in a payload built by [collectFormData], an optional field whose
    input is absent or empty after trimming is the empty string, and
    [candidate_name] is then the fixed literal. *)
Theorem empty_inputs_default (s : state) (data : payload) :
  collectFormData s = Some data ->
  (blank s "target_role" -> target_role data = [])
  ∧ (blank s "company_name" -> company_name data = [])
  ∧ (blank s "jd_api_endpoint" -> jd_api_endpoint data = [])
  ∧ (blank s "jd_api_key" -> jd_api_key data = [])
  ∧ (blank s "job_id" -> job_id data = [])
  ∧ (blank s "jd_raw" -> jd_raw data = [])
  ∧ (blank s "candidate_name" -> candidate_name data = lit "BHARATH KUMAR RAJESH").
Proof.
  unfold collectFormData.
  destruct (trimmed s "base_script") as [script|]; [|done].
  intros [= <-]; cbn.
  repeat split; intros Hb; rewrite ?or_else_blank by done; by repeat case_match.
Qed.

Lemma empty_inputs_default_witness :
  collectFormData blank_paste_page = Some blank_paste_data
  ∧ blank blank_paste_page "candidate_name"
  ∧ candidate_name blank_paste_data = lit "BHARATH KUMAR RAJESH".
Proof.
  split; [reflexivity|]. split; [right; reflexivity|].
  apply (empty_inputs_default blank_paste_page blank_paste_data).
  - reflexivity.
  - right. reflexivity.
Defined.

(** C5: the fields of the inactive tab are empty whatever their inputs
    hold. *)
Theorem inactive_tab_fields_empty (s : state) (data : payload) :
  collectFormData s = Some data ->
  (activeTab s = Some (lit "paste") ->
   jd_api_endpoint data = [] ∧ jd_api_key data = [] ∧ job_id data = [])
  ∧ (activeTab s = Some (lit "api") -> jd_raw data = []).
Proof.
  unfold collectFormData.
  destruct (trimmed s "base_script") as [script|]; [|done].
  intros [= <-]; cbn.
  split; intros ->.
  - by rewrite paste_is_not_api.
  - by rewrite api_is_not_paste.
Qed.

Lemma inactive_tab_fields_empty_witness :
  collectFormData filled_api_page = Some filled_api_data
  ∧ activeTab filled_api_page = Some (lit "api")
  ∧ jd_raw filled_api_data = [].
Proof.
  split; [reflexivity|]. split; [reflexivity|].
  apply (inactive_tab_fields_empty filled_api_page filled_api_data); reflexivity.
Defined.


(** ** Failed requests *)

Lemma or_else_nonempty x d : d ≠ [] -> or_else x d ≠ [].
Proof. by destruct x as [[|]|]. Qed.

Lemma text_of_insert_eq id v m s :
  text s = <[id := v]> m -> text_of s id = v.
Proof. unfold text_of. intros ->. by rewrite lookup_insert_eq. Qed.

Ltac text_simpl :=
  unfold text_of; cbn;
  repeat first [ rewrite lookup_insert_eq | rewrite lookup_insert_ne by done ]; cbn.

(** Splitting on everything a handler branches on. *)
Ltac js_cases := repeat (case_match; cbn in *; simplify_eq).

Lemma ToString_JStr x : ToString (JStr x) = Some x.
Proof. reflexivity. Qed.

(** A response that is not ok makes the handler throw, without touching the
    state. *)
Lemma throw_server_error_result (E : engine) (A : Type) (resp : response) (s : state) :
  @throw_server_error E A resp s = (Throw (Thrown (server_failure_text E resp)), s).
Proof.
  unfold throw_server_error, server_failure_text, detail_member, server_error_text.
  js_unfold.
  destruct (json_result resp) as [e|j]; cbn; [by rewrite ToString_JStr|].
  destruct j; cbn; rewrite ?ToString_JStr; try done.
  unfold or_value.
  destruct (own_property members (lit "detail")) as [v|]; [|by rewrite ToString_JStr].
  destruct (truthy (Some v)); [|by rewrite ToString_JStr].
  by destruct (ToString v).
Qed.

(** C2: when a request fails, whichever trigger sent it, the handler leaves
    both buttons enabled, the loading overlay hidden, and the error panel
    shown with a message that is not empty. *)
Theorem failure_reenables_and_reports (E : engine) (tr : trigger) (o : outcome) (s : state) :
  failed o ->
  let s' := run (on_settled E tr o) s in
  ("generate-btn"%string ∉ disabled s')
  ∧ ("script-btn"%string ∉ disabled s')
  ∧ has_class s' "loading-overlay" "hidden"
  ∧ ¬ has_class s' "error-panel" "hidden"
  ∧ text_of s' "error-body" ≠ [].
Proof.
  intros Hf s'. subst s'. unfold has_class.
  destruct tr, o as [e|resp]; cbn in Hf; js_unfold; cbn;
    rewrite ?Hf; cbn; rewrite ?throw_server_error_result; cbn.
  all: clear Hf; split; [set_solver|]; split; [set_solver|];
    split; [classes_simpl; set_solver|]; split; [classes_simpl; set_solver|];
    text_simpl; by apply or_else_nonempty.
Qed.

Lemma failure_reenables_and_reports_witness :
  failed (Responded not_found)
  ∧ let s' := run (on_settled v8 Generate (Responded not_found)) loading_page in
    ("generate-btn"%string ∉ disabled s')
    ∧ ("script-btn"%string ∉ disabled s')
    ∧ has_class s' "loading-overlay" "hidden"
    ∧ ¬ has_class s' "error-panel" "hidden"
    ∧ text_of s' "error-body" ≠ [].
Proof.
  split; [reflexivity|].
  apply (failure_reenables_and_reports v8 Generate (Responded not_found) loading_page).
  reflexivity.
Defined.

(** C6, as stated, fails: a response that is not ok and whose [detail] is
    present but is not a string (here a list holding one object) is
    reported as ["[object Object]"], which is neither the detail nor a
    fallback message. *)
Lemma detail_not_surfaced :
  let o := Responded validation_error in
  let shown := text_of (run (on_settled v8 Generate o) loading_page) "error-body" in
  failed o
  ∧ detail_member validation_error
    = Some (JArr [JObj [(lit "msg", JStr (lit "field required"))]])
  ∧ shown = lit "[object Object]"
  ∧ Some (JStr shown) ≠ detail_member validation_error
  ∧ shown ≠ server_error_text validation_error
  ∧ shown ≠ generic_message Generate.
Proof. by vm_compute. Qed.

(** C6, amended: a failed request is reported with the text described by
    [reported_text]: in particular with exactly the [detail] of the error
    body when that is a non-empty string; the close button of the panel
    hides it. *)
Theorem failure_message (E : engine) (tr : trigger) (o : outcome) (s : state) :
  failed o ->
  let s' := run (on_settled E tr o) s in
  text_of s' "error-body" = reported_text E tr o
  ∧ (∀ resp d, o = Responded resp -> detail_member resp = Some (JStr d) -> d ≠ [] ->
       text_of s' "error-body" = d)
  ∧ has_class (run on_error_close s') "error-panel" "hidden".
Proof.
  intros Hf s'.
  assert (Ht : text_of s' "error-body" = reported_text E tr o).
  { subst s'. unfold reported_text.
    destruct tr, o as [e|resp]; cbn in Hf; js_unfold; cbn;
      rewrite ?Hf; cbn; rewrite ?throw_server_error_result; cbn; by text_simpl. }
  split; [done|]. split.
  - intros resp d -> Hd Hne. rewrite Ht. unfold reported_text, server_failure_text.
    rewrite Hd. by destruct d.
  - unfold has_class. js_unfold. classes_simpl. set_solver.
Qed.

Lemma failure_message_witness :
  failed (Responded not_found)
  ∧ let s' := run (on_settled v8 Script (Responded not_found)) loading_page in
    text_of s' "error-body" = reported_text v8 Script (Responded not_found)
    ∧ (∀ resp d, Responded not_found = Responded resp ->
         detail_member resp = Some (JStr d) -> d ≠ [] -> text_of s' "error-body" = d)
    ∧ has_class (run on_error_close s') "error-panel" "hidden".
Proof.
  split; [reflexivity|].
  apply (failure_message v8 Script (Responded not_found) loading_page).
  reflexivity.
Defined.

(** ** Successful generate requests *)

Lemma STEPS_cases (id : string) :
  id ∈ STEPS -> id = "step-1"%string ∨ id = "step-2"%string
                ∨ id = "step-3"%string ∨ id = "step-4"%string.
Proof. unfold STEPS. set_solver. Qed.

(** C3, as stated, fails: a 200 response that carries the file but whose
    summary header is not a well-formed escape sequence makes
    [decodeURIComponent] throw before the body is read; nothing is
    downloaded and the error panel is shown instead. *)
Lemma ok_response_without_download :
  let resp := tailored [("X-Pages"%string, lit "1");
                        ("X-Changes-Summary"%string, lit "Keyword match up 20%")] in
  let s' := run (on_settled v8 Generate (Responded resp)) loading_page in
  ok resp = true
  ∧ blob_result resp = inr pdf_bytes
  ∧ downloads (log s') = []
  ∧ log s' = log loading_page
  ∧ ¬ has_class s' "error-panel" "hidden"
  ∧ text_of s' "error-body" = lit "URI malformed".
Proof. by vm_compute. Qed.

(** The actions of the generate handler on a response it can use. *)
Lemma generate_success_log
    (E : engine) (resp : response) (changes : jsstring) (b : blob) (s : state) :
  ok resp = true ->
  decodeURIComponent (or_else (headers_get resp "X-Changes-Summary") []) = Some changes ->
  blob_result resp = inr b ->
  let s' := run (on_settled E Generate (Responded resp)) s in
  let u := fresh s in
  let n := S (fresh s) in
  let a := {| href := Some u; download := Some pdf_name |} in
  log s' = log s ++ [ACreateObjectURL u b; AAppendChild n; AClick a (Some b);
                     ARemoveChild n; ARevokeObjectURL u]
  ∧ downloads (log s') = downloads (log s) ++ [(b, pdf_name)].
Proof.
  intros Hok Hdec Hblob s' u n a.
  assert (Hlog : log s' = log s ++ [ACreateObjectURL u b; AAppendChild n; AClick a (Some b);
                                    ARemoveChild n; ARevokeObjectURL u]).
  { subst s' u n a. js_unfold. cbn. rewrite Hok. cbn. rewrite Hdec. cbn.
    rewrite Hblob. cbn. rewrite lookup_insert_eq. by rewrite <- !app_assoc. }
  split; [done|].
  rewrite Hlog. unfold downloads. by rewrite omap_app.
Qed.

(** C3, amended: for a response that is ok, whose summary header decodes and
    whose body is read as a blob, the handler performs exactly these
    actions, in this order: it creates one object URL for the blob, appends
    one anchor, clicks it once (one download of the blob), removes the
    anchor and revokes the URL; afterwards the URL is gone from the store,
    the anchor from the body, the timer is cleared, the overlay hidden and
    the step markings reset. *)
Theorem successful_generate_downloads_once
    (E : engine) (resp : response) (changes : jsstring) (b : blob) (s : state) :
  ok resp = true ->
  decodeURIComponent (or_else (headers_get resp "X-Changes-Summary") []) = Some changes ->
  blob_result resp = inr b ->
  let s' := run (on_settled E Generate (Responded resp)) s in
  let u := fresh s in
  let n := S (fresh s) in
  let a := {| href := Some u; download := Some pdf_name |} in
  log s' = log s ++ [ACreateObjectURL u b; AAppendChild n; AClick a (Some b);
                     ARemoveChild n; ARevokeObjectURL u]
  ∧ downloads (log s') = downloads (log s) ++ [(b, pdf_name)]
  ∧ object_urls s' !! u = None
  ∧ (n ∉ (body_children s').*1)
  ∧ (∀ t, stepTimer s = Some t -> timers s' !! t = None)
  ∧ has_class s' "loading-overlay" "hidden"
  ∧ (∀ id, id ∈ STEPS -> ¬ has_class s' id "active" ∧ ¬ has_class s' id "done").
Proof.
  intros Hok Hdec Hblob s' u n a.
  destruct (generate_success_log E resp changes b s Hok Hdec Hblob) as [Hlog Hdl].
  split; [done|]. split; [done|]. clear Hdl.
  subst s' u n a. clear Hlog. unfold has_class.
  js_unfold. cbn. rewrite Hok. cbn. rewrite Hdec. cbn. rewrite Hblob. cbn.
  clear Hok Hdec Hblob.
  split; [by rewrite lookup_delete_eq|]. split.
  { rewrite list_elem_of_fmap. intros [[n' a'] [Hn Hin]]. cbn in Hn. subst n'.
    apply list_elem_of_In, filter_In in Hin as [_ Hne]. cbn in Hne.
    by rewrite Nat.eqb_refl in Hne. }
  split; [intros t ->; by rewrite lookup_delete_eq|].
  split; [classes_simpl; set_solver|].
  intros id Hid. apply STEPS_cases in Hid as [-> | [-> | [-> | ->]]];
    split; classes_simpl; set_solver.
Qed.

Lemma successful_generate_downloads_once_witness :
  let resp := tailored [("X-Pages"%string, lit "2");
                        ("X-Changes-Summary"%string, lit "Reordered%20skills")] in
  ok resp = true
  ∧ decodeURIComponent (or_else (headers_get resp "X-Changes-Summary") [])
    = Some (lit "Reordered skills")
  ∧ blob_result resp = inr pdf_bytes
  ∧ downloads (log (run (on_settled v8 Generate (Responded resp)) loading_page))
    = downloads (log loading_page) ++ [(pdf_bytes, pdf_name)].
Proof.
  intros resp. split; [reflexivity|]. split; [reflexivity|]. split; [reflexivity|].
  apply (successful_generate_downloads_once v8 resp (lit "Reordered skills")
           pdf_bytes loading_page); reflexivity.
Defined.

Lemma or_value_JStr (x : jsstring) : or_value (Some (JStr x)) (JStr []) = JStr x.
Proof. by destruct x. Qed.

(** C9: on a generate response that is ok and whose file is read, the page
    badge shows one page when the [X-Pages] header is absent (and the
    summary header decodes, so that results are shown at all), and the
    summary shows the fixed text when the [X-Changes-Summary] header is
    absent. *)
Theorem results_defaults (E : engine) (resp : response) (b : blob) (s : state) :
  ok resp = true ->
  blob_result resp = inr b ->
  let s' := run (on_settled E Generate (Responded resp)) s in
  (headers_get resp "X-Pages" = None ->
   is_Some (decodeURIComponent (or_else (headers_get resp "X-Changes-Summary") [])) ->
   text_of s' "page-badge" = [55357; 56516] ++ lit " 1 Page " ++ [183] ++ lit " ATS Ready"
   ∧ ¬ has_class s' "results-panel" "hidden")
  ∧ (headers_get resp "X-Changes-Summary" = None ->
     text_of s' "changes-summary" = lit "Resume tailored successfully using Claude AI."
     ∧ ¬ has_class s' "results-panel" "hidden").
Proof.
  intros Hok Hblob s'. subst s'. unfold has_class. split.
  - intros Hp [changes Hdec]. js_unfold. cbn. rewrite Hok. cbn. rewrite Hdec. cbn.
    rewrite Hblob. cbn. rewrite Hp. split; [by text_simpl|].
    classes_simpl. set_solver.
  - intros Hc. js_unfold. cbn. rewrite Hok. cbn. rewrite Hc.
    change (decodeURIComponent (or_else None [])) with (Some (@nil N)). cbn.
    rewrite Hblob. cbn. split; [by text_simpl|].
    classes_simpl. set_solver.
Qed.

Lemma results_defaults_witness :
  let resp := tailored [] in
  ok resp = true
  ∧ blob_result resp = inr pdf_bytes
  ∧ headers_get resp "X-Pages" = None
  ∧ headers_get resp "X-Changes-Summary" = None
  ∧ let s' := run (on_settled v8 Generate (Responded resp)) loading_page in
    text_of s' "page-badge" = [55357; 56516] ++ lit " 1 Page " ++ [183] ++ lit " ATS Ready"
    ∧ text_of s' "changes-summary" = lit "Resume tailored successfully using Claude AI.".
Proof.
  intros resp. split; [reflexivity|]. split; [reflexivity|].
  split; [reflexivity|]. split; [reflexivity|].
  destruct (results_defaults v8 resp pdf_bytes loading_page) as [Hp Hc];
    [reflexivity | reflexivity |].
  split.
  - apply Hp; [reflexivity | by eexists].
  - by apply Hc.
Defined.

(** ** Requests *)

(** *** The body of a request *)

Lemma hex_value_hex_digit (n : N) : n < 16 -> hex_value (hex_digit n) = Some n.
Proof.
  intros Hn.
  assert (H : n = 0 ∨ n = 1 ∨ n = 2 ∨ n = 3 ∨ n = 4 ∨ n = 5 ∨ n = 6 ∨ n = 7
              ∨ n = 8 ∨ n = 9 ∨ n = 10 ∨ n = 11 ∨ n = 12 ∨ n = 13 ∨ n = 14 ∨ n = 15)
    by lia.
  repeat (destruct H as [-> | H]); try subst n; reflexivity.
Qed.

Lemma hex4_unicode (c : N) :
  c < 65536 ->
  hex4 (hex_digit (c / 4096 mod 16)) (hex_digit (c / 256 mod 16))
       (hex_digit (c / 16 mod 16)) (hex_digit (c mod 16)) = Some c.
Proof.
  intros Hc. unfold hex4.
  rewrite !hex_value_hex_digit by (apply N.mod_lt; lia). cbn. f_equal.
  zify. Z.to_euclidean_division_equations. lia.
Qed.

Lemma read_chars_unicode (c : N) (x : jsstring) :
  c < 65536 ->
  read_chars (unicode_escape c ++ x)
  = '(t, rest) ← read_chars x; Some (c :: t, rest).
Proof.
  intros Hc. unfold unicode_escape. cbn [app read_chars].
  change (92 =? 34) with false. change (92 =? 92) with true.
  change (117 =? 117) with true. cbv iota.
  by rewrite hex4_unicode.
Qed.

Lemma read_chars_copied (c : N) (x : jsstring) :
  c ≠ 34 -> c ≠ 92 -> 32 <= c ->
  read_chars (c :: x) = '(t, rest) ← read_chars x; Some (c :: t, rest).
Proof.
  intros H1 H2 H3. cbn [read_chars].
  rewrite (proj2 (N.eqb_neq _ _) H1), (proj2 (N.eqb_neq _ _) H2).
  by rewrite (proj2 (N.ltb_ge _ _) H3).
Qed.

Lemma read_chars_quote_unit (c : N) (x : jsstring) :
  c < 65536 ->
  read_chars (quote_unit c ++ x)
  = '(t, rest) ← read_chars x; Some (c :: t, rest).
Proof.
  intros Hc. unfold quote_unit.
  repeat match goal with
         | |- context [c =? ?k] => destruct (N.eqb_spec c k) as [->|?]; [reflexivity|]
         end.
  cbv iota.
  destruct (_ || _) eqn:Hesc; [by apply read_chars_unicode|].
  apply orb_false_iff in Hesc as [Hesc _]. apply orb_false_iff in Hesc as [Hlt _].
  apply N.ltb_ge in Hlt. by apply read_chars_copied.
Qed.

Lemma surrogate_copied (c : N) :
  is_high_surrogate c = true ∨ is_low_surrogate c = true ->
  c ≠ 34 ∧ c ≠ 92 ∧ 32 <= c.
Proof.
  unfold is_high_surrogate, is_low_surrogate, in_range.
  rewrite !andb_true_iff, !N.leb_le. lia.
Qed.

(** Reading back what [JSON.stringify] writes for a string gives the
    string. *)
Lemma read_chars_quote_units (n : nat) (s rest : jsstring) :
  (length s <= n)%nat ->
  Forall (fun c => c < 65536) s ->
  read_chars (quote_units s ++ 34 :: rest) = Some (s, rest).
Proof.
  revert s. induction n as [|n IH]; intros s Hlen Hs.
  { destruct s; [reflexivity | cbn in Hlen; lia]. }
  destruct s as [|c r]; [reflexivity|].
  apply Forall_cons in Hs as [Hc Hr]. cbn [length] in Hlen.
  cbn [quote_units].
  destruct (is_high_surrogate c) eqn:Hhigh.
  - destruct r as [|d r'].
    + rewrite read_chars_unicode by done. reflexivity.
    + destruct (is_low_surrogate d) eqn:Hlow.
      * apply Forall_cons in Hr as [Hd Hr']. cbn [length] in Hlen.
        destruct (surrogate_copied c) as (? & ? & ?); [by left|].
        destruct (surrogate_copied d) as (? & ? & ?); [by right|].
        cbn [app]. rewrite read_chars_copied, read_chars_copied by done.
        rewrite IH by (done || lia). reflexivity.
      * rewrite <- app_assoc, read_chars_unicode by done.
        rewrite IH by (done || lia). reflexivity.
  - rewrite <- app_assoc, read_chars_quote_unit by done.
    rewrite IH by (done || lia). reflexivity.
Qed.

Lemma read_string_quoted (s rest : jsstring) :
  Forall (fun c => c < 65536) s ->
  read_string (QuoteJSONString s ++ rest) = Some (s, rest).
Proof.
  intros Hs. unfold QuoteJSONString, read_string.
  rewrite <- !app_assoc. cbn [app]. change (34 =? 34) with true. cbv iota.
  by apply (read_chars_quote_units (length s)).
Qed.

Lemma lit_code_units (name : string) : Forall (fun c => c < 65536) (lit name).
Proof.
  induction name as [|a name IH]; [constructor|].
  change (lit (String a name)) with (N_of_ascii a :: lit name).
  constructor; [|exact IH].
  pose proof (N_ascii_bounded a). lia.
Qed.

Lemma read_member_member (name : string) (v rest : jsstring) :
  Forall (fun c => c < 65536) v ->
  read_member (member name v ++ rest) = Some ((lit name, v), rest).
Proof.
  intros Hv. unfold member, read_member.
  rewrite <- !app_assoc, read_string_quoted by apply lit_code_units.
  change (lit ":" ++ ?x) with (58 :: x).
  cbn [mbind option_bind]. change (58 =? 58) with true. cbv iota.
  by rewrite read_string_quoted.
Qed.

(** The text [JSON.stringify] writes for a string of code units it copies
    as they are. *)
Lemma quote_units_plain (s : jsstring) :
  Forall (fun c => plain_unit c = true) s -> quote_units s = s.
Proof.
  induction 1 as [|c s Hc _ IH]; [reflexivity|].
  unfold plain_unit, in_range in Hc.
  rewrite !andb_true_iff, !negb_true_iff, andb_false_iff in Hc.
  rewrite N.leb_le, !N.eqb_neq, !N.leb_gt in Hc.
  destruct Hc as (((H32 & H34) & H92) & Hsur).
  cbn [quote_units].
  assert (Hhigh : is_high_surrogate c = false).
  { unfold is_high_surrogate, in_range. apply andb_false_iff.
    rewrite !N.leb_gt. lia. }
  assert (Hlow : is_low_surrogate c = false).
  { unfold is_low_surrogate, in_range. apply andb_false_iff.
    rewrite !N.leb_gt. lia. }
  rewrite Hhigh, IH. unfold quote_unit.
  repeat match goal with
         | |- context [c =? ?k] => destruct (N.eqb_spec c k) as [->|?]; [lia|]
         end.
  cbv iota.
  rewrite Hhigh, Hlow, (proj2 (N.ltb_ge _ _) H32). reflexivity.
Qed.

Lemma read_members_more (n m : nat) (s : jsstring) (l : list (jsstring * jsstring)) :
  read_members n s = Some l -> (n <= m)%nat -> read_members m s = Some l.
Proof.
  revert m s l. induction n as [|n IH]; intros m s l H Hle; [done|].
  destruct m as [|m]; [lia|]. cbn [read_members] in *.
  destruct (read_member s) as [[k r]|]; [|done]. cbn in *.
  destruct r as [|c r']; [done|].
  destruct (c =? 125); [done|]. destruct (c =? 44); [|done].
  destruct (read_members n r') as [l'|] eqn:Hl'; [|done].
  rewrite (IH m r' l' Hl') by lia. done.
Qed.

Lemma read_members_comma (n : nat) (name : string) (v rest : jsstring) :
  Forall (fun c => c < 65536) v ->
  read_members (S n) (member name v ++ lit "," ++ rest)
  = l ← read_members n rest; Some ((lit name, v) :: l).
Proof.
  intros Hv. cbn [read_members]. rewrite read_member_member by done.
  reflexivity.
Qed.

Lemma read_members_brace (n : nat) (name : string) (v : jsstring) :
  Forall (fun c => c < 65536) v ->
  read_members (S n) (member name v ++ lit "}") = Some [(lit name, v)].
Proof.
  intros Hv. cbn [read_members]. rewrite read_member_member by done.
  reflexivity.
Qed.

(** The body parses as JSON to the members of the payload. *)
Lemma read_object_stringify (data : payload) :
  code_units data -> read_object (JSON_stringify data) = Some (members_of data).
Proof.
  unfold code_units, members_of. rewrite !Forall_cons. cbn [snd].
  intros (H1 & H2 & H3 & H4 & H5 & H6 & H7 & H8 & _).
  unfold JSON_stringify, read_object.
  change (lit "{" ++ ?x) with (123 :: x). change (123 =? 123) with true. cbv iota.
  apply (read_members_more 8).
  - rewrite !read_members_comma, read_members_brace by done. reflexivity.
  - rewrite !length_app. change (length (lit ",")) with 1%nat.
    change (length (lit "}")) with 1%nat. lia.
Qed.

(** The body, written out, for a payload of code units that are copied as
    they are. *)
Lemma stringify_plain (data : payload) :
  plain data ->
  JSON_stringify data
  = lit "{" ++ quoted (lit "base_script") ++ lit ":" ++ quoted (base_script data)
    ++ lit "," ++ quoted (lit "jd_api_endpoint") ++ lit ":" ++ quoted (jd_api_endpoint data)
    ++ lit "," ++ quoted (lit "jd_api_key") ++ lit ":" ++ quoted (jd_api_key data)
    ++ lit "," ++ quoted (lit "job_id") ++ lit ":" ++ quoted (job_id data)
    ++ lit "," ++ quoted (lit "jd_raw") ++ lit ":" ++ quoted (jd_raw data)
    ++ lit "," ++ quoted (lit "candidate_name") ++ lit ":" ++ quoted (candidate_name data)
    ++ lit "," ++ quoted (lit "target_role") ++ lit ":" ++ quoted (target_role data)
    ++ lit "," ++ quoted (lit "company_name") ++ lit ":" ++ quoted (company_name data)
    ++ lit "}".
Proof.
  unfold plain, members_of. rewrite !Forall_cons. cbn [snd].
  intros (H1 & H2 & H3 & H4 & H5 & H6 & H7 & H8 & _).
  unfold JSON_stringify, member, QuoteJSONString, quoted.
  rewrite !quote_units_plain by (done || (apply (bool_decide_unpack _); by vm_compute)).
  by rewrite <- !app_assoc.
Qed.

(** *** The request of each trigger *)

(** C8: a trigger whose payload passes [validate] sends exactly one request:
    a POST of the JSON text of the payload, with a JSON content type, to
    ['/tailor'] from the form's submit and to ['/script'] from the script
    button.  The generate response is read as a blob, which is what gets
    downloaded; the script response is read as JSON, whose [script] and
    [changes_summary] strings fill the modal.  The body is the same for both
    triggers: an object of the eight members in the order of the object
    literal, each name and each value between double quotes, a value as it
    is when it needs no escape; and in every case a JSON reader gets the
    eight members of the payload back from it. *)
Theorem request_by_trigger (E : engine) (tr : trigger) (s : state) (data : payload) :
  collectFormData s = Some data ->
  validate s data = None ->
  let s' := run (on_trigger E tr) s in
  log s' = log s ++ [AFetch {| url := match tr with
                                      | Generate => "/tailor"
                                      | Script => "/script"
                                      end;
                               method := "POST";
                               headers := [("Content-Type", "application/json")]%string;
                               body := JSON_stringify data |}]
  ∧ inflight s' = inflight s ++ [tr]
  ∧ (∀ resp changes b s2,
       ok resp = true ->
       decodeURIComponent (or_else (headers_get resp "X-Changes-Summary") []) = Some changes ->
       blob_result resp = inr b ->
       downloads (log (run (on_settled E Generate (Responded resp)) s2))
       = downloads (log s2) ++ [(b, pdf_name)])
  ∧ (∀ resp members script summary s2,
       ok resp = true ->
       json_result resp = inr (JObj members) ->
       own_property members (lit "script") = Some (JStr script) ->
       own_property members (lit "changes_summary") = Some (JStr summary) ->
       let s3 := run (on_settled E Script (Responded resp)) s2 in
       text_of s3 "script-output" = script
       ∧ text_of s3 "changes-modal-summary" = summary
       ∧ ¬ has_class s3 "script-modal" "hidden"
       ∧ log s3 = log s2)
  ∧ (plain data ->
     JSON_stringify data
     = lit "{" ++ quoted (lit "base_script") ++ lit ":" ++ quoted (base_script data)
       ++ lit "," ++ quoted (lit "jd_api_endpoint") ++ lit ":" ++ quoted (jd_api_endpoint data)
       ++ lit "," ++ quoted (lit "jd_api_key") ++ lit ":" ++ quoted (jd_api_key data)
       ++ lit "," ++ quoted (lit "job_id") ++ lit ":" ++ quoted (job_id data)
       ++ lit "," ++ quoted (lit "jd_raw") ++ lit ":" ++ quoted (jd_raw data)
       ++ lit "," ++ quoted (lit "candidate_name") ++ lit ":" ++ quoted (candidate_name data)
       ++ lit "," ++ quoted (lit "target_role") ++ lit ":" ++ quoted (target_role data)
       ++ lit "," ++ quoted (lit "company_name") ++ lit ":" ++ quoted (company_name data)
       ++ lit "}")
  ∧ (code_units data -> read_object (JSON_stringify data) = Some (members_of data)).
Proof.
  intros Hdata Hvalid s'. split; [|split; [|split; [|split; [|split]]]].
  - subst s'. destruct tr; js_unfold; rewrite Hdata; cbn; by rewrite Hvalid.
  - subst s'. destruct tr; js_unfold; rewrite Hdata; cbn; by rewrite Hvalid.
  - intros resp changes b s2 Hok Hdec Hblob.
    by apply (generate_success_log E resp changes b s2).
  - clear s' Hdata Hvalid.
    intros resp members script summary s2 Hok Hjson Hscript Hsummary s3. subst s3.
    unfold has_class. js_unfold. cbn. rewrite Hok. cbn. rewrite Hjson. cbn.
    unfold get_property. rewrite Hscript. cbn.
    rewrite or_value_JStr, ToString_JStr. cbn. rewrite Hsummary. cbn.
    rewrite or_value_JStr, ToString_JStr. cbn.
    split; [by text_simpl|]. split; [by text_simpl|].
    split; [classes_simpl; set_solver | done].
  - apply stringify_plain.
  - apply read_object_stringify.
Qed.

Lemma request_by_trigger_witness :
  collectFormData filled_paste_page = Some filled_paste_data
  ∧ validate filled_paste_page filled_paste_data = None
  ∧ log (run (on_trigger v8 Generate) filled_paste_page)
    = log filled_paste_page
      ++ [AFetch {| url := "/tailor"; method := "POST";
                    headers := [("Content-Type", "application/json")]%string;
                    body := JSON_stringify filled_paste_data |}]
  ∧ JSON_stringify filled_paste_data
    = lit "{" ++ quoted (lit "base_script") ++ lit ":" ++ quoted (lit "story = []")
      ++ lit "," ++ quoted (lit "jd_api_endpoint") ++ lit ":" ++ quoted []
      ++ lit "," ++ quoted (lit "jd_api_key") ++ lit ":" ++ quoted []
      ++ lit "," ++ quoted (lit "job_id") ++ lit ":" ++ quoted []
      ++ lit "," ++ quoted (lit "jd_raw") ++ lit ":" ++ quoted (lit "Rust engineer")
      ++ lit "," ++ quoted (lit "candidate_name") ++ lit ":"
      ++ quoted (lit "BHARATH KUMAR RAJESH")
      ++ lit "," ++ quoted (lit "target_role") ++ lit ":" ++ quoted (lit "Engineer")
      ++ lit "," ++ quoted (lit "company_name") ++ lit ":" ++ quoted []
      ++ lit "}"
  ∧ collectFormData two_line_page = Some two_line_data
  ∧ validate two_line_page two_line_data = None
  ∧ requests (log (run (on_trigger v8 Script) two_line_page))
    = [{| url := "/script"; method := "POST";
          headers := [("Content-Type", "application/json")]%string;
          body :=
            lit "{" ++ quoted (lit "base_script") ++ lit ":" ++ quoted (lit "story = []")
            ++ lit "," ++ quoted (lit "jd_api_endpoint") ++ lit ":" ++ quoted []
            ++ lit "," ++ quoted (lit "jd_api_key") ++ lit ":" ++ quoted []
            ++ lit "," ++ quoted (lit "job_id") ++ lit ":" ++ quoted []
            ++ lit "," ++ quoted (lit "jd_raw") ++ lit ":" ++ quoted (lit "Rust\nengineer")
            ++ lit "," ++ quoted (lit "candidate_name") ++ lit ":"
            ++ quoted (lit "BHARATH KUMAR RAJESH")
            ++ lit "," ++ quoted (lit "target_role") ++ lit ":" ++ quoted []
            ++ lit "," ++ quoted (lit "company_name") ++ lit ":" ++ quoted []
            ++ lit "}" |}]
  ∧ read_object (JSON_stringify two_line_data)
    = Some [(lit "base_script", lit "story = []"); (lit "jd_api_endpoint", []);
            (lit "jd_api_key", []); (lit "job_id", []);
            (lit "jd_raw", lit "Rust" ++ [10] ++ lit "engineer");
            (lit "candidate_name", lit "BHARATH KUMAR RAJESH");
            (lit "target_role", []); (lit "company_name", [])].
Proof.
  split; [reflexivity|]. split; [reflexivity|].
  destruct (request_by_trigger v8 Generate filled_paste_page filled_paste_data
              eq_refl eq_refl) as (Hlog & _ & _ & _ & Hplain & _).
  split; [exact Hlog|].
  split.
  { apply Hplain. unfold plain. apply (bool_decide_unpack _). by vm_compute. }
  split; [reflexivity|]. split; [reflexivity|].
  destruct (request_by_trigger v8 Script two_line_page two_line_data
              eq_refl eq_refl) as (Hlog2 & _ & _ & _ & _ & Hread).
  split.
  { rewrite Hlog2. reflexivity. }
  apply Hread. unfold code_units. apply (bool_decide_unpack _). by vm_compute.
Defined.

(** ** Without an active tab *)




(** ** The loading animation *)

Lemma STEPS_lookup (i : nat) (id : string) :
  STEPS !! i = Some id ->
  (i = 0%nat ∧ id = "step-1"%string) ∨ (i = 1%nat ∧ id = "step-2"%string)
  ∨ (i = 2%nat ∧ id = "step-3"%string) ∨ (i = 3%nat ∧ id = "step-4"%string).
Proof.
  do 4 (destruct i as [|i]; [cbn; intros [= <-]; tauto|]). done.
Qed.

(** [showLoading] shows the overlay, resets the markings, marks the first
    step and starts one new timer of 4000 ms, kept in [stepTimer]. *)
Lemma showLoading_starts (E : engine) (s : state) :
  let s' := run (showLoading E) s in
  shows_step s' 0
  ∧ ¬ has_class s' "loading-overlay" "hidden"
  ∧ stepTimer s' = Some (fresh s)
  ∧ timers s' = <[fresh s := {| delay := 4000; idx := 0 |}]> (timers s)
  ∧ inflight s' = inflight s ∧ disabled s' = disabled s.
Proof.
  intros s'. subst s'. unfold has_class. js_unfold. cbn.
  split; [|split; [classes_simpl; set_solver | done]].
  intros i id Hi. unfold has_class.
  apply STEPS_lookup in Hi as [[-> ->] | [[-> ->] | [[-> ->] | [-> ->]]]];
    classes_simpl; split; split; first [ set_solver | lia | done ].
Qed.

(** The markings of the four steps, spelled out for one shown step. *)
Lemma shows_step_cases (s : state) (k : nat) :
  shows_step s k <->
  ((has_class s "step-1" "active" <-> 0%nat = k) ∧ (has_class s "step-1" "done" <-> (0 < k)%nat))
  ∧ ((has_class s "step-2" "active" <-> 1%nat = k) ∧ (has_class s "step-2" "done" <-> (1 < k)%nat))
  ∧ ((has_class s "step-3" "active" <-> 2%nat = k) ∧ (has_class s "step-3" "done" <-> (2 < k)%nat))
  ∧ ((has_class s "step-4" "active" <-> 3%nat = k) ∧ (has_class s "step-4" "done" <-> (3 < k)%nat)).
Proof.
  split.
  - intros H.
    split; [exact (H 0%nat "step-1"%string eq_refl)|].
    split; [exact (H 1%nat "step-2"%string eq_refl)|].
    split; [exact (H 2%nat "step-3"%string eq_refl)|].
    exact (H 3%nat "step-4"%string eq_refl).
  - intros (H1 & H2 & H3 & H4) i id Hi.
    by apply STEPS_lookup in Hi as [[-> ->] | [[-> ->] | [[-> ->] | [-> ->]]]].
Qed.

(** One expiry of the timer while a later step remains: the shown step
    becomes ['done'] and the next one ['active']. *)
Lemma step_callback_advances (E : engine) (t : nat) (tm : timer) (s : state) :
  timers s !! t = Some tm ->
  (idx tm < 3)%nat ->
  shows_step s (idx tm) ->
  let s' := run (step_callback E t) s in
  shows_step s' (S (idx tm))
  ∧ timers s' = <[t := {| delay := delay tm; idx := S (idx tm) |}]> (timers s)
  ∧ stepTimer s' = stepTimer s ∧ inflight s' = inflight s ∧ disabled s' = disabled s.
Proof.
  intros Ht Hlt Hs s'. subst s'. js_unfold. rewrite Ht.
  rewrite shows_step_cases in Hs. rewrite shows_step_cases.
  destruct tm as [d k]. cbn in *. unfold has_class in *.
  destruct Hs as ((A1 & D1) & (A2 & D2) & (A3 & D3) & (A4 & D4)).
  destruct k as [|[|[|k]]]; [| | |lia]; cbn; (split; [|done]);
    classes_simpl; unfold class_list in *;
    repeat split; intros; try lia; try set_solver by lia.
Qed.

(** At the last step the callback does nothing. *)
Lemma step_callback_last (E : engine) (t : nat) (tm : timer) (s : state) :
  timers s !! t = Some tm ->
  (3 <= idx tm)%nat ->
  run (step_callback E t) s = s.
Proof.
  intros Ht Hge. js_unfold. rewrite Ht.
  change (length STEPS - 1)%nat with 3%nat.
  by rewrite (proj2 (Nat.ltb_ge _ _) Hge).
Qed.

(** Whatever a request settles to, the [finally] block of its handler
    clears the timer held in [stepTimer], hides the overlay, resets the
    markings and enables both buttons; the pending requests are not
    touched. *)
Lemma settled_cleanup (E : engine) (tr : trigger) (o : outcome) (s : state) :
  let s' := run (on_settled E tr o) s in
  timers s' = match stepTimer s with
              | Some t => delete t (timers s)
              | None => timers s
              end
  ∧ stepTimer s' = stepTimer s
  ∧ inflight s' = inflight s
  ∧ disabled s' = disabled s ∖ {["generate-btn"%string]} ∖ {["script-btn"%string]}
  ∧ has_class s' "loading-overlay" "hidden"
  ∧ steps_reset s'.
Proof.
  intros s'. subst s'. unfold steps_reset, has_class.
  destruct tr, o as [e|resp]; js_unfold; cbn;
    try (destruct (ok resp); cbn; rewrite ?throw_server_error_result; cbn);
    js_cases.
  all: split; [done|]; split; [done|]; split; [done|]; split; [done|];
    split; [classes_simpl; set_solver|];
    intros id Hid; apply STEPS_cases in Hid as [-> | [-> | [-> | ->]]];
    split; classes_simpl; set_solver.
Qed.

(** ** One timer at a time *)

Lemma run_modify_seq {A} (f : state -> state) (m : js A) (s : state) :
  run (modify f;; m) s = run m (f s).
Proof. reflexivity. Qed.

Lemma settle_single (tr : trigger) : settle tr [tr] = [].
Proof. by destruct tr. Qed.

(** A trigger on an idle page either changes nothing that matters (the form
    cannot be read, or [validate] rejects the payload) or starts loading. *)
Lemma on_trigger_idle (E : engine) (tr : trigger) (s : state) :
  idle s -> consistent (run (on_trigger E tr) s).
Proof.
  intros [Hi Ht].
  destruct (collectFormData s) as [data|] eqn:Hdata.
  - destruct (validate s data) as [err|] eqn:Hv.
    + left. destruct tr; js_unfold; rewrite Hdata; cbn; by rewrite Hv.
    + right. exists tr, (fresh s), {| delay := 4000; idx := 0 |}.
      destruct tr; js_unfold; rewrite Hdata; cbn; rewrite Hv; cbn;
        rewrite Hi, Ht; (split; [done|]); (split; [done|]);
        (split; [by rewrite insert_empty|]); (split; [done|]); (split; [lia|]);
        (split; [|set_solver]);
        apply shows_step_cases; unfold has_class; classes_simpl;
        repeat split; first [ set_solver | lia | done ].
  - left. destruct tr; js_unfold; by rewrite Hdata.
Qed.

Lemma shows_step_classes (s s' : state) (k : nat) :
  (∀ id, id ∈ STEPS -> class_list s' id = class_list s id) ->
  shows_step s k -> shows_step s' k.
Proof.
  intros Hc Hs i id Hi. unfold has_class. rewrite Hc; [by apply Hs|].
  by apply list_elem_of_lookup_2 in Hi.
Qed.

(** When the pending request settles, the page is idle again. *)
Lemma settled_idle (E : engine) (tr : trigger) (o : outcome) (s : state) :
  consistent s -> tr ∈ inflight s -> idle (run (handler E (EvSettled tr o)) s).
Proof.
  intros [[Hi Ht]|(tr0 & t0 & tm & Hi & Hst & Ht & _)] He.
  { rewrite Hi in He. by apply elem_of_nil in He. }
  rewrite Hi in He. apply list_elem_of_singleton in He as ->.
  cbn [handler]. rewrite run_modify_seq.
  destruct (settled_cleanup E tr0 o (set_inflight (settle tr0 (inflight s)) s))
    as (Ht' & _ & Hi' & _).
  split.
  - rewrite Hi'. cbn. by rewrite Hi, settle_single.
  - rewrite Ht'. cbn. rewrite Hst, Ht. apply delete_singleton_eq.
Qed.

(** Every event keeps the page consistent. *)
Lemma consistent_step (E : engine) (s : state) (e : event) :
  consistent s -> enabled s e -> consistent (run (handler E e) s).
Proof.
  intros Hc He. destruct e as [t f| | |t'|tr o|]; cbn in He.
  - destruct Hc as [[Hi Ht]|(tr & t0 & tm & H)]; [by left|right].
    exists tr, t0, tm. exact H.
  - destruct Hc as [Hi|(tr & t0 & tm & _ & _ & _ & _ & _ & _ & Hd & _)]; [|done].
    by apply on_trigger_idle.
  - destruct Hc as [Hi|(tr & t0 & tm & _ & _ & _ & _ & _ & _ & _ & Hd)]; [|done].
    by apply on_trigger_idle.
  - destruct Hc as [[Hi Ht]|(tr & t0 & tm & Hi & Hst & Ht & Hd & Hk & Hs & Hg & Hb)].
    { rewrite Ht, lookup_empty in He. by destruct He. }
    assert (t' = t0) as ->.
    { destruct (decide (t' = t0)); [done|].
      rewrite Ht, lookup_singleton_ne in He by done. by destruct He. }
    assert (Hl : timers s !! t0 = Some tm) by (by rewrite Ht, lookup_singleton_eq).
    right. cbn [handler]. change (length STEPS) with 4%nat in Hk.
    destruct (decide (idx tm < 3)%nat) as [Hlt|Hge].
    + destruct (step_callback_advances E t0 tm s Hl Hlt Hs)
        as (Hs' & Ht' & Hst' & Hi' & Hd').
      exists tr, t0, {| delay := delay tm; idx := S (idx tm) |}.
      rewrite Ht', Hst', Hi', Hd', Ht. cbn.
      split_and!; try done; [by rewrite insert_singleton_eq | lia].
    + rewrite (step_callback_last E t0 tm s Hl) by lia.
      exists tr, t0, tm. by change (length STEPS) with 4%nat.
  - destruct Hc as [[Hi Ht]|(tr0 & t0 & tm & Hi & Hst & Ht & Hrest)].
    { rewrite Hi in He. by apply elem_of_nil in He. }
    left. apply settled_idle; [|done]. right. by exists tr0, t0, tm.
  - destruct Hc as [[Hi Ht]|(tr & t0 & tm & Hi & Hst & Ht & Hd & Hk & Hs & Hg & Hb)];
      [by left|right].
    exists tr, t0, tm. split_and!; try done.
    revert Hs. apply shows_step_classes. intros id Hid.
    apply STEPS_cases in Hid as [-> | [-> | [-> | ->]]]; js_unfold; by classes_simpl.
Qed.

Lemma reachable_consistent (E : engine) (s : state) :
  reachable E s -> consistent s.
Proof.
  induction 1 as [s (Ht & Hi & _)|s s' _ IH Hstep]; [by left|].
  destruct Hstep as [s e He]. by apply consistent_step.
Qed.

(** C7: the loading indicator has four steps.  [showLoading] marks the
    first one and starts one timer of 4000 ms; each expiry of that timer
    turns the active step into a done one and marks the next one active,
    until the fourth step is the active one, where it stays.  Between
    events at most one timer is live, the one held in [stepTimer], and its
    [idx] is the step shown.  Whatever a request settles to (a completed
    download or script, or an error), its handler clears that timer, resets
    all markings and hides the overlay, and no timer is left. *)
Theorem loading_animation (E : engine) :
  length STEPS = 4%nat
  ∧ (∀ s, let s' := run (showLoading E) s in
       shows_step s' 0
       ∧ stepTimer s' = Some (fresh s)
       ∧ timers s' = <[fresh s := {| delay := 4000; idx := 0 |}]> (timers s))
  ∧ (∀ s t tm,
       timers s !! t = Some tm -> (idx tm < 3)%nat -> shows_step s (idx tm) ->
       let s' := run (step_callback E t) s in
       shows_step s' (S (idx tm))
       ∧ timers s' = <[t := {| delay := delay tm; idx := S (idx tm) |}]> (timers s))
  ∧ (∀ s t tm,
       timers s !! t = Some tm -> (3 <= idx tm)%nat -> run (step_callback E t) s = s)
  ∧ (∀ s, reachable E s ->
       (size (timers s) <= 1)%nat
       ∧ ∀ t tm, timers s !! t = Some tm ->
           stepTimer s = Some t ∧ delay tm = 4000 ∧ shows_step s (idx tm))
  ∧ (∀ s tr o,
       let s' := run (on_settled E tr o) s in
       (∀ t, stepTimer s = Some t -> timers s' !! t = None)
       ∧ steps_reset s'
       ∧ has_class s' "loading-overlay" "hidden")
  ∧ (∀ s tr o, reachable E s -> tr ∈ inflight s ->
       timers (run (handler E (EvSettled tr o)) s) = ∅).
Proof.
  split_and!.
  - done.
  - intros s s'. destruct (showLoading_starts E s) as (H1 & _ & H2 & H3 & _). done.
  - intros s t tm Ht Hlt Hs s'.
    destruct (step_callback_advances E t tm s Ht Hlt Hs) as (H1 & H2 & _). done.
  - intros s t tm. apply step_callback_last.
  - intros s Hr. apply reachable_consistent in Hr
      as [[Hi Ht]|(tr & t0 & tm0 & Hi & Hst & Ht & Hd & Hk & Hs & _)].
    + rewrite Ht. split; [rewrite map_size_empty; lia|].
      intros t tm. by rewrite lookup_empty.
    + rewrite Ht. split; [rewrite map_size_singleton; lia|].
      intros t tm Hl. apply lookup_singleton_Some in Hl as [<- <-]. done.
  - intros s tr o s'.
    destruct (settled_cleanup E tr o s) as (Ht & _ & _ & _ & Ho & Hs).
    split_and!; [|done|done].
    intros t Hst. fold s' in Ht. rewrite Ht, Hst. apply lookup_delete_eq.
  - intros s tr o Hr Hin. apply reachable_consistent in Hr.
    by destruct (settled_idle E tr o s Hr Hin).
Qed.

Lemma loading_animation_witness :
  let s := run (showLoading v8) filled_paste_page in
  timers s !! 0%nat = Some {| delay := 4000; idx := 0 |}
  ∧ shows_step s 0
  ∧ shows_step (run (step_callback v8 0) s) 1.
Proof.
  intros s.
  destruct (loading_animation v8) as (_ & Hstart & Hadvance & _).
  assert (Hs : shows_step s 0) by apply (Hstart filled_paste_page).
  split; [reflexivity|]. split; [exact Hs|].
  apply (Hadvance s 0%nat {| delay := 4000; idx := 0 |}); [reflexivity | cbn; lia | exact Hs].
Defined.

(** * More of the script *)

(** ** White space around the inputs *)

Lemma trimStart_split (s : jsstring) :
  ∃ p, s = p ++ trimStart s ∧ Forall (fun c => is_js_space c = true) p
       ∧ ∀ c, head (trimStart s) = Some c -> is_js_space c = false.
Proof.
  induction s as [|c s (p & Hs & Hp & Hh)]; cbn.
  - exists []. by repeat split.
  - destruct (is_js_space c) eqn:Hc.
    + exists (c :: p). cbn. split; [by rewrite <- Hs|]. split; [by constructor|done].
    + exists []. repeat split; [constructor|]. cbn. by intros ? [= <-].
Qed.

Lemma trim_stripped (s : jsstring) : stripped_of (trim s) s.
Proof.
  unfold trim, trimEnd.
  destruct (trimStart_split s) as (p & Hs & Hp & Hh).
  destruct (trimStart_split (rev (trimStart s))) as (q & Hr & Hq & Hl).
  set (a := trimStart s) in *. set (b := trimStart (rev a)) in *.
  assert (Ha : a = rev b ++ rev q).
  { rewrite <- (rev_involutive a), Hr. by rewrite rev_app_distr. }
  exists p, (rev q). split; [by rewrite <- Ha|]. split; [done|].
  split; [by apply Forall_rev|]. split.
  - intros c Hc. apply Hh. rewrite Ha. destruct (rev b); [done|]. exact Hc.
  - intros c Hc. apply Hl. destruct b as [|x b']; [done|].
    cbn in Hc. by rewrite last_snoc in Hc.
Qed.

Lemma or_else_no_outer_space (x : option jsstring) (d : jsstring) :
  (∀ v, x = Some v -> no_outer_space v) -> no_outer_space d ->
  no_outer_space (or_else x d).
Proof. intros Hx Hd. destruct x as [[|c v]|]; try done. by apply Hx. Qed.

Lemma no_outer_space_nil : no_outer_space [].
Proof. by split. Qed.

Lemma or_else_some_nil (x : jsstring) : or_else (Some x) [] = x.
Proof. by destruct x. Qed.

(** X1: every field of a payload built by [collectFormData] is free of
    white space at both ends; [base_script] is its input with the white
    space of both ends taken off, and so are [jd_raw] on the paste tab and
    [job_id] on the API tab. *)
Theorem payload_fields_trimmed (s : state) (data : payload) :
  collectFormData s = Some data ->
  (∃ v, form s !! "base_script"%string = Some v ∧ stripped_of (base_script data) v)
  ∧ no_outer_space (jd_api_endpoint data) ∧ no_outer_space (jd_api_key data)
  ∧ no_outer_space (job_id data) ∧ no_outer_space (jd_raw data)
  ∧ no_outer_space (candidate_name data) ∧ no_outer_space (target_role data)
  ∧ no_outer_space (company_name data)
  ∧ (activeTab s = Some (lit "paste") ->
     ∀ v, form s !! "jd_raw"%string = Some v -> stripped_of (jd_raw data) v)
  ∧ (activeTab s = Some (lit "api") ->
     ∀ v, form s !! "job_id"%string = Some v -> stripped_of (job_id data) v).
Proof.
  unfold collectFormData, trimmed.
  destruct (form s !! "base_script"%string) as [v|] eqn:Hv; [|done].
  cbn. intros [= <-]. cbn.
  assert (Ht : ∀ name v, trim <$> form s !! name = Some v -> no_outer_space v).
  { intros name w. destruct (form s !! name) as [u|]; [|done].
    intros [= <-]. by destruct (trim_stripped u) as (_ & _ & _ & _ & _ & H). }
  assert (Hd : ∀ name, no_outer_space (or_else (trim <$> form s !! name) [])).
  { intros name. apply or_else_no_outer_space; [apply Ht | apply no_outer_space_nil]. }
  split; [exists v; split; [done | apply trim_stripped]|].
  split_and!; try (repeat case_match; try apply Hd; apply no_outer_space_nil).
  - apply or_else_no_outer_space; [apply Ht|]. split; by intros c [= <-].
  - intros Ha w Hw. rewrite Ha, strict_eq_self, Hw. cbn.
    rewrite or_else_some_nil. apply trim_stripped.
  - intros Ha w Hw. rewrite Ha, strict_eq_self, Hw. cbn.
    rewrite or_else_some_nil. apply trim_stripped.
Qed.

Lemma payload_fields_trimmed_witness :
  collectFormData filled_api_page = Some filled_api_data
  ∧ activeTab filled_api_page = Some (lit "api")
  ∧ stripped_of (job_id filled_api_data) (lit " 42 ").
Proof.
  split; [reflexivity|]. split; [reflexivity|].
  destruct (payload_fields_trimmed filled_api_page filled_api_data eq_refl)
    as (_ & _ & _ & _ & _ & _ & _ & _ & _ & H).
  apply H; reflexivity.
Defined.

(** ** The two ways a trigger ends before [fetch] *)

(** X2: when [validate] rejects the payload, either handler sends nothing
    and starts nothing: the log, the pending requests, the timers, the
    buttons and the overlay are as before; the results panel is hidden and
    the error panel shows the message of [validate]. *)
Theorem rejected_payload_stays (E : engine) (tr : trigger) (s : state)
    (data : payload) (err : jsstring) :
  collectFormData s = Some data ->
  validate s data = Some err ->
  let s' := run (on_trigger E tr) s in
  log s' = log s ∧ inflight s' = inflight s ∧ timers s' = timers s
  ∧ stepTimer s' = stepTimer s ∧ disabled s' = disabled s
  ∧ class_list s' "loading-overlay" = class_list s "loading-overlay"
  ∧ text_of s' "error-body" = err
  ∧ ¬ has_class s' "error-panel" "hidden"
  ∧ has_class s' "results-panel" "hidden".
Proof.
  intros Hd Hv s'. subst s'. unfold has_class.
  destruct tr; js_unfold; rewrite Hd; cbn; rewrite Hv; cbn;
    (split_and!; try done; [by classes_simpl | by text_simpl
                           | classes_simpl; set_solver | classes_simpl; set_solver]).
Qed.

Lemma rejected_payload_stays_witness :
  collectFormData blank_paste_page = Some blank_paste_data
  ∧ validate blank_paste_page blank_paste_data
    = Some (lit "Please paste a job description.")
  ∧ let s' := run (on_trigger v8 Generate) blank_paste_page in
    log s' = log blank_paste_page
    ∧ text_of s' "error-body" = lit "Please paste a job description.".
Proof.
  split; [reflexivity|]. split; [reflexivity|].
  destruct (rejected_payload_stays v8 Generate blank_paste_page blank_paste_data
              (lit "Please paste a job description.") eq_refl eq_refl)
    as (Hl & _ & _ & _ & _ & _ & Ht & _).
  split; [exact Hl | exact Ht].
Defined.

(** X3: when the form has no [base_script] control, [collectFormData]
    throws and either handler leaves the whole page as it was: no message,
    no request, no loading state. *)
Theorem missing_base_script_stops (E : engine) (tr : trigger) (s : state) :
  form s !! "base_script"%string = None ->
  collectFormData s = None ∧ run (on_trigger E tr) s = s.
Proof.
  intros Hf.
  assert (Hc : collectFormData s = None).
  { unfold collectFormData, trimmed. by rewrite Hf. }
  split; [done|]. destruct tr; js_unfold; by rewrite Hc.
Qed.

Lemma missing_base_script_stops_witness :
  form scriptless_page !! "base_script"%string = None
  ∧ run (on_trigger v8 Script) scriptless_page = scriptless_page.
Proof.
  split; [reflexivity|].
  apply (missing_base_script_stops v8 Script scriptless_page). reflexivity.
Defined.

(** X4: when [validate] accepts the payload, the handler disables both
    buttons, shows the overlay with the first step active, hides both
    message panels and starts one timer of 4000 ms kept in [stepTimer]; the
    generate handler also sets the button label to ['Tailoring…'], the
    script handler leaves the label alone. *)
Theorem accepted_payload_starts_loading (E : engine) (tr : trigger) (s : state)
    (data : payload) :
  collectFormData s = Some data ->
  validate s data = None ->
  let s' := run (on_trigger E tr) s in
  ("generate-btn"%string ∈ disabled s') ∧ ("script-btn"%string ∈ disabled s')
  ∧ ¬ has_class s' "loading-overlay" "hidden"
  ∧ has_class s' "results-panel" "hidden"
  ∧ has_class s' "error-panel" "hidden"
  ∧ shows_step s' 0
  ∧ stepTimer s' = Some (fresh s)
  ∧ timers s' = <[fresh s := {| delay := 4000; idx := 0 |}]> (timers s)
  ∧ text_of s' "btn-label"
    = match tr with
      | Generate => lit "Tailoring" ++ [8230]
      | Script => text_of s "btn-label"
      end.
Proof.
  intros Hd Hv s'. subst s'. unfold has_class.
  destruct tr; js_unfold; rewrite Hd; cbn; rewrite Hv; cbn;
    (split; [set_solver|]); (split; [set_solver|]);
    (split; [classes_simpl; set_solver|]); (split; [classes_simpl; set_solver|]);
    (split; [classes_simpl; set_solver|]);
    (split; [|split; [done|split; [done|by text_simpl]]]);
    apply shows_step_cases; unfold has_class; classes_simpl;
    repeat split; first [ set_solver | lia | done ].
Qed.

Lemma accepted_payload_starts_loading_witness :
  collectFormData filled_paste_page = Some filled_paste_data
  ∧ validate filled_paste_page filled_paste_data = None
  ∧ let s' := run (on_trigger v8 Generate) filled_paste_page in
    ("generate-btn"%string ∈ disabled s') ∧ ("script-btn"%string ∈ disabled s').
Proof.
  split; [reflexivity|]. split; [reflexivity|].
  destruct (accepted_payload_starts_loading v8 Generate filled_paste_page
              filled_paste_data eq_refl eq_refl) as (Hg & Hs & _).
  split; [exact Hg | exact Hs].
Defined.

(** X5: whatever the generate request settles to, its handler puts the
    label ['Generate Tailored PDF'] back; the script handler never changes
    the label. *)
Theorem generate_label_restored (E : engine) (o : outcome) (s : state) :
  text_of (run (on_settled E Generate o) s) "btn-label" = lit "Generate Tailored PDF"
  ∧ text_of (run (on_settled E Script o) s) "btn-label" = text_of s "btn-label".
Proof.
  split.
  - destruct o as [e|resp]; js_unfold; cbn;
      try (destruct (ok resp); cbn; rewrite ?throw_server_error_result; cbn);
      js_cases; by text_simpl.
  - destruct o as [e|resp]; js_unfold; cbn;
      try (destruct (ok resp); cbn; rewrite ?throw_server_error_result; cbn);
      js_cases; by text_simpl.
Qed.

(** ** What a generate response shows *)

(** What the generate handler shows for a response it can use. *)
Lemma generate_success_display
    (E : engine) (resp : response) (changes : jsstring) (b : blob) (s : state) :
  ok resp = true ->
  decodeURIComponent (or_else (headers_get resp "X-Changes-Summary") []) = Some changes ->
  blob_result resp = inr b ->
  let s' := run (on_settled E Generate (Responded resp)) s in
  text_of s' "changes-summary"
  = or_else (Some changes) (lit "Resume tailored successfully using Claude AI.")
  ∧ text_of s' "page-badge"
    = page_badge (parseInt10 (or_else (headers_get resp "X-Pages") (lit "1")))
  ∧ ¬ has_class s' "results-panel" "hidden"
  ∧ class_list s' "error-panel" = class_list s "error-panel"
  ∧ text_of s' "error-body" = text_of s "error-body".
Proof.
  intros Hok Hdec Hblob s'. subst s'. unfold has_class.
  js_unfold. cbn. rewrite Hok. cbn. rewrite Hdec. cbn. rewrite Hblob. cbn.
  split_and!; [by text_simpl | by text_simpl | classes_simpl; set_solver
              | by classes_simpl | by text_simpl].
Qed.

Lemma unescape_cons_ne (c : N) (r : jsstring) :
  c ≠ 37 -> unescape_octets (c :: r) = cons (inl c) <$> unescape_octets r.
Proof.
  intros Hc. destruct c as [|p]; [done|].
  do 6 (destruct p as [p|p|]; try done).
Qed.

(** A string without a percent sign decodes to itself. *)
Lemma decode_without_percent (h : jsstring) :
  37 ∉ h -> decodeURIComponent h = Some h.
Proof.
  intros Hh. unfold decodeURIComponent.
  assert (Hu : unescape_octets h = Some (inl <$> h)).
  { induction h as [|c h IH]; [done|].
    rewrite unescape_cons_ne by set_solver. rewrite IH by set_solver. done. }
  rewrite Hu. cbn. clear. induction h as [|c h IH]; [done|]. cbn. by rewrite IH.
Qed.

(** X6: on a generate response that is ok and whose file is read, a
    summary header that is not empty and has no percent sign is shown in
    the results panel exactly as it was sent. *)
Theorem plain_summary_shown_verbatim
    (E : engine) (resp : response) (h : jsstring) (b : blob) (s : state) :
  ok resp = true ->
  blob_result resp = inr b ->
  headers_get resp "X-Changes-Summary" = Some h ->
  h ≠ [] ->
  37 ∉ h ->
  let s' := run (on_settled E Generate (Responded resp)) s in
  text_of s' "changes-summary" = h ∧ ¬ has_class s' "results-panel" "hidden".
Proof.
  intros Hok Hblob Hh Hne Hp s'.
  assert (Hd : decodeURIComponent (or_else (headers_get resp "X-Changes-Summary") []) = Some h).
  { rewrite Hh. destruct h; [done|]. by apply decode_without_percent. }
  destruct (generate_success_display E resp h b s Hok Hd Hblob) as (H1 & _ & H3 & _).
  split; [|done]. fold s' in H1. rewrite H1. by destruct h.
Qed.

Lemma plain_summary_shown_verbatim_witness :
  let resp := tailored [("X-Changes-Summary"%string, lit "Reordered skills")] in
  headers_get resp "X-Changes-Summary" = Some (lit "Reordered skills")
  ∧ text_of (run (on_settled v8 Generate (Responded resp)) loading_page) "changes-summary"
    = lit "Reordered skills".
Proof.
  intros resp. split; [reflexivity|].
  apply (plain_summary_shown_verbatim v8 resp (lit "Reordered skills") pdf_bytes
           loading_page); try reflexivity; [done|].
  apply (bool_decide_unpack _). by vm_compute.
Defined.

Lemma uint_value_pos (p : positive) (d : Decimal.uint) :
  uint_value (Npos p) d = Npos (Pos.of_uint_acc d p).
Proof.
  revert p. induction d; intros p; cbn [uint_value Pos.of_uint_acc]; try done;
    rewrite <- IHd; f_equal; lia.
Qed.

Lemma uint_value_zero (d : Decimal.uint) : uint_value 0 d = N.of_uint d.
Proof.
  unfold N.of_uint.
  induction d; cbn [uint_value Pos.of_uint]; try done;
    change (10 * 0 + _) with (Npos 1) || idtac; try (by rewrite <- uint_value_pos).
Qed.

Lemma lit_String (a : ascii) (s : string) : lit (String a s) = N_of_ascii a :: lit s.
Proof. reflexivity. Qed.

Lemma digits_prefix_digit (acc : Z) (cnt : nat) (c : N) (s : jsstring) :
  is_digit c = true ->
  digits_prefix acc cnt (c :: s) = digits_prefix (10 * acc + Z.of_N (c - 48))%Z (S cnt) s.
Proof. intros H. cbn [digits_prefix]. by rewrite H. Qed.

Lemma digits_of_uint (d : Decimal.uint) (acc : N) (cnt : nat) :
  digits_prefix (Z.of_N acc) cnt (lit (NilEmpty.string_of_uint d))
  = (Z.of_N (uint_value acc d), (cnt + Decimal.nb_digits d)%nat).
Proof.
  revert acc cnt. induction d; intros acc cnt;
    cbn [NilEmpty.string_of_uint uint_value Decimal.nb_digits];
    [ by rewrite Nat.add_0_r | .. ];
    rewrite lit_String, digits_prefix_digit by reflexivity;
    match goal with
    | |- digits_prefix ?z _ _ = (Z.of_N (uint_value ?a _), _) =>
      replace z with (Z.of_N a) by (cbn; lia)
    end;
    rewrite IHd; f_equal; lia.
Qed.

Lemma is_digit_cases (c : N) :
  is_digit c = true ->
  c = 48 ∨ c = 49 ∨ c = 50 ∨ c = 51 ∨ c = 52 ∨ c = 53 ∨ c = 54 ∨ c = 55
  ∨ c = 56 ∨ c = 57.
Proof.
  unfold is_digit. rewrite andb_true_iff, !N.leb_le. lia.
Qed.

(** A string that starts with a digit is read as an unsigned number. *)
Lemma parseInt10_unsigned (c : N) (r : jsstring) :
  is_digit c = true ->
  parseInt10 (c :: r)
  = match digits_prefix 0 0 (c :: r) with
    | (_, O) => JNaN
    | (v, _) => JInt v
    end.
Proof.
  intros Hc. unfold parseInt10.
  apply is_digit_cases in Hc.
  repeat (destruct Hc as [-> | Hc]); try subst c;
    match goal with
    | |- context [trimStart (?c :: ?r)] => change (trimStart (c :: r)) with (c :: r)
    end;
    lazy beta iota zeta;
    match goal with
    | |- context [digits_prefix 0 0 ?l] => destruct (digits_prefix 0 0 l) as [v [|k]]
    end; by rewrite ?Z.mul_1_l.
Qed.

(** Reading back the decimal rendering of a number gives the number. *)
Lemma parseInt10_decimal (n : N) : parseInt10 (decimal n) = JInt (Z.of_N n).
Proof.
  unfold decimal, NilZero.string_of_uint.
  pose proof (DecimalN.Unsigned.of_to n) as Hn.
  rewrite <- uint_value_zero in Hn.
  destruct (N.to_uint n) as [|d|d|d|d|d|d|d|d|d|d] eqn:Hd.
  { cbn in Hn. by subst n. }
  all: remember (NilEmpty.string_of_uint _) as str eqn:Hs;
    pose proof Hs as Hs'; cbn [NilEmpty.string_of_uint] in Hs'; rewrite Hs';
    rewrite lit_String, parseInt10_unsigned by reflexivity;
    rewrite <- lit_String, <- Hs', Hs;
    change (digits_prefix 0 0) with (digits_prefix (Z.of_N 0) 0);
    rewrite digits_of_uint, Hn; by cbn.
Qed.

Lemma number_to_string_nonneg (n : N) : number_to_string (JInt (Z.of_N n)) = decimal n.
Proof.
  unfold number_to_string. rewrite Zabs2N.id.
  by rewrite (proj2 (Z.ltb_ge _ _) (N2Z.is_nonneg n)).
Qed.

Lemma decimal_nonempty (n : N) : decimal n ≠ [].
Proof.
  unfold decimal, NilZero.string_of_uint.
  by destruct (N.to_uint n).
Qed.

(** X7: on a generate response that is ok, whose file is read and whose
    summary header decodes, an [X-Pages] header holding the decimal digits
    of [n], for [n] up to [2^53] (the range in which a Number is the integer
    it was read from), makes the badge show [n], followed by ['Page'] when
    [n] is 1 and by ['Pages'] otherwise. *)
Theorem page_count_shown
    (E : engine) (resp : response) (n : N) (changes : jsstring) (b : blob) (s : state) :
  ok resp = true ->
  blob_result resp = inr b ->
  decodeURIComponent (or_else (headers_get resp "X-Changes-Summary") []) = Some changes ->
  headers_get resp "X-Pages" = Some (decimal n) ->
  n <= 9007199254740992 ->
  text_of (run (on_settled E Generate (Responded resp)) s) "page-badge"
  = [55357; 56516; 32] ++ decimal n ++ lit " Page"
    ++ (if n =? 1 then [] else lit "s") ++ [32; 183; 32] ++ lit "ATS Ready".
Proof.
  intros Hok Hblob Hd Hh _.
  destruct (generate_success_display E resp changes b s Hok Hd Hblob) as (_ & H2 & _).
  rewrite H2, Hh.
  assert (Ho : or_else (Some (decimal n)) (lit "1") = decimal n).
  { pose proof (decimal_nonempty n). by destruct (decimal n). }
  rewrite Ho, parseInt10_decimal. unfold page_badge.
  rewrite number_to_string_nonneg. do 3 f_equal.
  destruct (N.eqb_spec n 1) as [->|Hne]; [done|].
  destruct n as [|[p|p|]]; done.
Qed.

Lemma page_count_shown_witness :
  let resp := tailored [("X-Pages"%string, lit "2")] in
  headers_get resp "X-Pages" = Some (decimal 2)
  ∧ 2 <= 9007199254740992
  ∧ text_of (run (on_settled v8 Generate (Responded resp)) loading_page) "page-badge"
    = [55357; 56516] ++ lit " 2 Pages " ++ [183] ++ lit " ATS Ready".
Proof.
  intros resp. split; [reflexivity|]. split; [lia|].
  apply (page_count_shown v8 resp 2 [] pdf_bytes loading_page);
    first [reflexivity | lia].
Defined.

(** X8: the page count is not checked: an [X-Pages] header that is not
    empty and does not start with a number (after white space and a sign)
    makes the badge read ['NaN Pages']. *)
Theorem unreadable_page_count
    (E : engine) (resp : response) (h changes : jsstring) (b : blob) (s : state) :
  ok resp = true ->
  blob_result resp = inr b ->
  decodeURIComponent (or_else (headers_get resp "X-Changes-Summary") []) = Some changes ->
  headers_get resp "X-Pages" = Some h ->
  h ≠ [] ->
  parseInt10 h = JNaN ->
  text_of (run (on_settled E Generate (Responded resp)) s) "page-badge"
  = [55357; 56516] ++ lit " NaN Pages " ++ [183] ++ lit " ATS Ready".
Proof.
  intros Hok Hblob Hd Hh Hne Hn.
  destruct (generate_success_display E resp changes b s Hok Hd Hblob) as (_ & H2 & _).
  rewrite H2, Hh. destruct h; [done|]. unfold or_else. by rewrite Hn.
Qed.

Lemma unreadable_page_count_witness :
  let resp := tailored [("X-Pages"%string, lit "two")] in
  parseInt10 (lit "two") = JNaN
  ∧ text_of (run (on_settled v8 Generate (Responded resp)) loading_page) "page-badge"
    = [55357; 56516] ++ lit " NaN Pages " ++ [183] ++ lit " ATS Ready".
Proof.
  intros resp. split; [reflexivity|].
  apply (unreadable_page_count v8 resp (lit "two") [] pdf_bytes loading_page);
    try reflexivity. done.
Defined.

(** ** What a script response shows *)



(** X10: a script response that is ok but whose body is the JSON value
    [null] is reported as an error (the engine's message for reading a
    property of [null]); the script text and the modal are left as they
    were. *)
Theorem null_script_body_reported (E : engine) (resp : response) (s : state) :
  ok resp = true ->
  json_result resp = inr JNull ->
  let s' := run (on_settled E Script (Responded resp)) s in
  text_of s' "error-body"
  = or_else (Some (null_property E "script"))
      (lit "Script generation failed. Check the server logs.")
  ∧ ¬ has_class s' "error-panel" "hidden"
  ∧ text_of s' "script-output" = text_of s "script-output"
  ∧ class_list s' "script-modal" = class_list s "script-modal".
Proof.
  intros Hok Hj s'. subst s'. unfold has_class.
  js_unfold. cbn. rewrite Hok. cbn. rewrite Hj. cbn.
  split_and!; [by text_simpl | classes_simpl; set_solver | by text_simpl
              | by classes_simpl].
Qed.

Lemma null_script_body_reported_witness :
  json_result (script_body JNull) = inr JNull
  ∧ let s' := run (on_settled v8 Script (Responded (script_body JNull))) loading_page in
    text_of s' "error-body" = lit "Cannot read properties of null (reading 'script')"
    ∧ ¬ has_class s' "error-panel" "hidden".
Proof.
  split; [reflexivity|].
  destruct (null_script_body_reported v8 (script_body JNull) loading_page eq_refl eq_refl)
    as (Ht & He & _).
  split; [exact Ht | exact He].
Defined.

(** X11: the two fields of the modal are not filled together: when the
    [script] member is a string but the [changes_summary] member cannot be
    converted to a string, the script text is already written when the
    error is reported (with the message of the [textContent] setter's
    TypeError, whatever the browser words it), and the modal stays as it
    was. *)
Theorem script_written_before_summary_fails
    (E : engine) (resp : response) (members : list (jsstring * json))
    (script : jsstring) (v : json) (s : state) :
  ok resp = true ->
  json_result resp = inr (JObj members) ->
  own_property members (lit "script") = Some (JStr script) ->
  own_property members (lit "changes_summary") = Some v ->
  truthy (Some v) = true ->
  ToString v = None ->
  let s' := run (on_settled E Script (Responded resp)) s in
  text_of s' "script-output" = script
  ∧ class_list s' "script-modal" = class_list s "script-modal"
  ∧ ¬ has_class s' "error-panel" "hidden"
  ∧ text_of s' "error-body"
    = or_else (Some (setter_conversion E "textContent"))
        (lit "Script generation failed. Check the server logs.").
Proof.
  intros Hok Hj Hs Hc Ht Hv s'. subst s'. unfold has_class.
  js_unfold. cbn. rewrite Hok. cbn. rewrite Hj. cbn.
  unfold get_property. rewrite Hs. cbn. rewrite or_value_JStr, ToString_JStr. cbn.
  rewrite Hc. cbn. unfold or_value. rewrite Ht, Hv. cbn.
  split_and!; [by text_simpl | by classes_simpl | classes_simpl; set_solver
              | by text_simpl].
Qed.

Lemma script_written_before_summary_fails_witness :
  ToString (JObj [(lit "toString", JNull)]) = None
  ∧ let s' := run (on_settled v8 Script (Responded odd_summary)) loading_page in
    text_of s' "script-output" = lit "story = [1]"
    ∧ class_list s' "script-modal" = class_list loading_page "script-modal"
    ∧ ¬ has_class s' "error-panel" "hidden".
Proof.
  split; [reflexivity|].
  destruct (script_written_before_summary_fails v8 odd_summary
              [(lit "script", JStr (lit "story = [1]"));
               (lit "changes_summary", JObj [(lit "toString", JNull)])]
              (lit "story = [1]") (JObj [(lit "toString", JNull)]) loading_page
              eq_refl eq_refl eq_refl eq_refl eq_refl eq_refl)
    as (Hs & Hm & He & _).
  split; [exact Hs|]. split; [exact Hm | exact He].
Defined.

(** ** Switching tabs *)

Lemma find_unique {A} (f : A -> bool) (l : list A) (i : nat) (x : A) :
  l !! i = Some x ->
  (∀ j y, l !! j = Some y -> f y = true <-> j = i) ->
  List.find f l = Some x.
Proof.
  revert i. induction l as [|a l IH]; intros i Hi Hu; [done|].
  destruct i as [|i]; cbn in *.
  - simplify_eq. by rewrite (proj2 (Hu 0%nat x eq_refl) eq_refl).
  - destruct (f a) eqn:Hfa.
    + by apply (Hu 0%nat a eq_refl) in Hfa.
    + apply (IH i Hi). intros j y Hj. rewrite (Hu (S j) y Hj). lia.
Qed.

Lemma remove_active_where_spec (cls : string) (c : gset string) (x : string) :
  x ∈ remove_active_where cls c <-> x ∈ c ∧ ¬ (x = "active"%string ∧ cls ∈ c).
Proof.
  unfold remove_active_where. case_bool_decide; set_solver.
Qed.

(** A click on a tab makes it the one active tab. *)
Lemma tab_click_tabs (E : engine) (i : nat) (t : tab) (s : state) :
  tabs s !! i = Some t ->
  "tab"%string ∈ tab_classList t ->
  let s' := run (on_tab_click E (Some i)) s in
  tabs s' = alter (map_tab_classes (fun c => c ∪ {["active"%string]})) i
              (map_tab_classes (remove_active_where "tab-pane")
                 <$> (map_tab_classes (remove_active_where "tab") <$> tabs s))
  ∧ form s' = form s ∧ text s' = text s ∧ disabled s' = disabled s
  ∧ timers s' = timers s ∧ stepTimer s' = stepTimer s ∧ inflight s' = inflight s
  ∧ log s' = log s ∧ object_urls s' = object_urls s
  ∧ body_children s' = body_children s.
Proof.
  intros Hi Ht s'. subst s'. unfold on_tab_click, remove_active_from_all, element_by_id.
  js_unfold. cbn. rewrite Hi. cbn. rewrite (bool_decide_eq_true_2 _ Ht). cbn.
  destruct (element_id _) as [k|]; [destruct (bool_decide _)|]; cbn; done.
Qed.

(** A click on a tab makes it the one active tab. *)
Lemma tab_click_active (E : engine) (i : nat) (t : tab) (s : state) :
  tabs s !! i = Some t ->
  "tab"%string ∈ tab_classList t ->
  let s' := run (on_tab_click E (Some i)) s in
  (∀ j t', tabs s' !! j = Some t' -> is_active_tab t' = true <-> j = i)
  ∧ activeTab s' = tab_dataset_tab t
  ∧ form s' = form s.
Proof.
  intros Hi Ht s'.
  destruct (tab_click_tabs E i t s Hi Ht) as (Htabs & Hform & _).
  fold s' in Htabs, Hform.
  assert (Hu : ∀ j t', tabs s' !! j = Some t' -> is_active_tab t' = true <-> j = i).
  { intros j t' Hj. rewrite Htabs in Hj. unfold is_active_tab.
    rewrite andb_true_iff, !bool_decide_eq_true.
    destruct (decide (j = i)) as [->|Hne].
    - rewrite list_lookup_alter_eq, !list_lookup_fmap, Hi in Hj. cbn in Hj.
      simplify_eq. cbn. split; [done|]. intros _. split; [|set_solver].
      apply elem_of_union_l. rewrite !remove_active_where_spec. naive_solver.
    - rewrite list_lookup_alter_ne, !list_lookup_fmap in Hj by done.
      destruct (tabs s !! j) as [t0|]; [|done]. cbn in Hj. simplify_eq. cbn.
      rewrite !remove_active_where_spec. naive_solver. }
  split; [done|]. split; [|done].
  unfold activeTab.
  assert (Hl : tabs s' !! i = Some
            (map_tab_classes (fun c => c ∪ {["active"%string]})
               (map_tab_classes (remove_active_where "tab-pane")
                  (map_tab_classes (remove_active_where "tab") t)))).
  { by rewrite Htabs, list_lookup_alter_eq, !list_lookup_fmap, Hi. }
  by rewrite (find_unique _ _ i _ Hl Hu).
Qed.

(** X12: after a click on a tab element, that element is the only one
    matching ['.tab.active'], so [activeTab] is its [data-tab]; the form is
    untouched.  This holds whether or not the pane of the tab exists. *)
Theorem tab_click_switches (E : engine) (i : nat) (t : tab) (s : state) :
  tabs s !! i = Some t ->
  "tab"%string ∈ tab_classList t ->
  let s' := run (on_tab_click E (Some i)) s in
  (∀ j t', tabs s' !! j = Some t' -> is_active_tab t' = true <-> j = i)
  ∧ activeTab s' = tab_dataset_tab t
  ∧ form s' = form s.
Proof. apply tab_click_active. Qed.

Lemma tab_in_classes (b : bool) (name : string) :
  "tab"%string ∈ tab_classList (tab_button b name).
Proof. destruct b; cbn; set_solver. Qed.

Lemma tab_click_switches_witness :
  tabs served_page !! 1%nat = Some (tab_button false "api")
  ∧ activeTab served_page = Some (lit "paste")
  ∧ activeTab (run (on_tab_click v8 (Some 1%nat)) served_page) = Some (lit "api").
Proof.
  split; [reflexivity|]. split; [reflexivity|].
  exact (proj1 (proj2 (tab_click_switches v8 1%nat (tab_button false "api") served_page
                         eq_refl (tab_in_classes false "api")))).
Defined.

Lemma lit_app (a b : string) : lit (a +:+ b) = lit a ++ lit b.
Proof.
  induction a as [|c a IH]; [done|].
  change (String c a +:+ b) with (String c (a +:+ b)).
  by rewrite !lit_String, IH.
Qed.

Lemma element_id_lit (k : string) : element_id (lit k) = Some k.
Proof.
  induction k as [|a k IH]; [done|].
  rewrite lit_String. cbn [element_id]. rewrite IH.
  rewrite (proj2 (N.ltb_lt _ _) (N_ascii_bounded a)). cbn.
  by rewrite ascii_N_embedding.
Qed.

Lemma classes_of_fmap (f : gset string -> gset string) (m : gmap string (gset string))
    (id : string) :
  f ∅ = ∅ -> classes_of (f <$> m) id = f (classes_of m id).
Proof. intros Hf. unfold classes_of. rewrite lookup_fmap. by destruct (m !! id). Qed.

Lemma remove_active_where_empty (cls : string) : remove_active_where cls ∅ = ∅.
Proof. unfold remove_active_where. case_bool_decide; set_solver. Qed.

(** X13: when the element ['tab-<name>'] exists, a click on the tab whose
    [data-tab] is [name] marks that element ['active'] and leaves no other
    element of class ['tab-pane'] active; no class other than ['active'] is
    added or removed anywhere. *)
Theorem tab_click_shows_pane (E : engine) (i : nat) (t : tab) (name : string) (s : state) :
  tabs s !! i = Some t ->
  "tab"%string ∈ tab_classList t ->
  tab_dataset_tab t = Some (lit name) ->
  is_Some (classes s !! ("tab-" +:+ name)) ->
  let s' := run (on_tab_click E (Some i)) s in
  has_class s' ("tab-" +:+ name) "active"
  ∧ (∀ id, id ≠ "tab-" +:+ name -> has_class s id "tab-pane" ->
       ¬ has_class s' id "active")
  ∧ (∀ id c, c ≠ "active"%string -> has_class s' id c <-> has_class s id c).
Proof.
  intros Hi Ht Hd Hp s'. subst s'.
  unfold on_tab_click, remove_active_from_all, element_by_id, has_class.
  js_unfold. cbn. rewrite Hi. cbn. rewrite (bool_decide_eq_true_2 _ Ht). cbn.
  rewrite Hd. cbn [template_string default].
  change (id (lit name)) with (lit name).
  replace (lit "tab-" ++ lit name) with (lit ("tab-" +:+ name)) by apply lit_app.
  rewrite element_id_lit.
  rewrite bool_decide_eq_true_2 by (rewrite !lookup_fmap; by destruct Hp as [c ->]).
  cbn. unfold class_list. cbn. split_and!.
  - rewrite classes_of_add_eq. set_solver.
  - intros id Hne Hpane. rewrite classes_of_add_ne by done.
    rewrite !classes_of_fmap by apply remove_active_where_empty.
    rewrite !remove_active_where_spec. naive_solver.
  - intros id c Hc.
    destruct (decide (id = "tab-" +:+ name)) as [->|Hne].
    + rewrite classes_of_add_eq.
      rewrite !classes_of_fmap by apply remove_active_where_empty.
      rewrite elem_of_union, !remove_active_where_spec. set_solver.
    + rewrite classes_of_add_ne by done.
      rewrite !classes_of_fmap by apply remove_active_where_empty.
      rewrite !remove_active_where_spec. naive_solver.
Qed.

Lemma tab_click_shows_pane_witness :
  is_Some (classes served_page !! ("tab-" +:+ "api"))
  ∧ has_class (run (on_tab_click v8 (Some 1%nat)) served_page) "tab-api" "active".
Proof.
  assert (H : is_Some (classes served_page !! ("tab-" +:+ "api"))).
  { by eexists. }
  split; [exact H|].
  exact (proj1 (tab_click_shows_pane v8 1%nat (tab_button false "api") "api" served_page
                  eq_refl (tab_in_classes false "api") eq_refl H)).
Defined.

(** X14: switching tabs changes what is sent and what is checked: after a
    click on the tab ['api'] the payload has an empty [jd_raw] and
    [validate] asks for the job identifier; after a click on the tab
    ['paste'] the payload has an empty [job_id] and [validate] asks for the
    description. *)
Theorem tab_switch_changes_validation
    (E : engine) (i : nat) (t : tab) (s : state) (data : payload) :
  tabs s !! i = Some t ->
  "tab"%string ∈ tab_classList t ->
  let s' := run (on_tab_click E (Some i)) s in
  collectFormData s' = Some data ->
  (tab_dataset_tab t = Some (lit "api") ->
   jd_raw data = [] ∧ job_id data = or_else (trimmed s "job_id") []
   ∧ (blank s "job_id" ->
      validate s' data = Some (lit "Please enter a Job ID or Job URL."))
   ∧ (¬ blank s "job_id" -> validate s' data = None))
  ∧ (tab_dataset_tab t = Some (lit "paste") ->
     job_id data = [] ∧ jd_raw data = or_else (trimmed s "jd_raw") []
     ∧ (blank s "jd_raw" ->
        validate s' data = Some (lit "Please paste a job description."))
     ∧ (¬ blank s "jd_raw" -> validate s' data = None)).
Proof.
  intros Hi Ht s'.
  destruct (tab_click_active E i t s Hi Ht) as (_ & Ha & Hf). fold s' in Ha, Hf.
  unfold collectFormData, validate, trimmed. rewrite Ha, Hf.
  destruct (trim <$> form s !! "base_script"%string) as [script|]; [|done].
  intros [= <-]; cbn. split; intros Hd; rewrite Hd;
    rewrite ?strict_eq_self, ?api_is_not_paste, ?paste_is_not_api; cbn.
  - split; [done|]. split; [done|]. split.
    + intros Hb. fold (trimmed s "job_id"). by rewrite or_else_blank.
    + intros Hb. fold (trimmed s "job_id").
      apply (or_else_not_blank _ _ []) in Hb.
      by destruct (or_else (trimmed s "job_id") []).
  - split; [done|]. split; [done|]. split.
    + intros Hb. fold (trimmed s "jd_raw"). by rewrite or_else_blank.
    + intros Hb. fold (trimmed s "jd_raw").
      apply (or_else_not_blank _ _ []) in Hb.
      by destruct (or_else (trimmed s "jd_raw") []).
Qed.

Lemma tab_switch_changes_validation_witness :
  let s' := run (on_tab_click v8 (Some 1%nat)) served_page in
  collectFormData s' = Some blank_data_of_served
  ∧ validate s' blank_data_of_served = Some (lit "Please enter a Job ID or Job URL.").
Proof.
  intros s'. split; [reflexivity|].
  destruct (tab_switch_changes_validation v8 1%nat (tab_button false "api") served_page
              blank_data_of_served eq_refl (tab_in_classes false "api") eq_refl)
    as [Hapi _].
  destruct (Hapi eq_refl) as (_ & _ & Hb & _).
  apply Hb. left. reflexivity.
Defined.

(** ** Saving the script *)

(** What the download button does. *)
Lemma download_script_log (s : state) :
  let s' := run on_download_script s in
  let b := utf8_encode (normalize_newlines (text_of s "script-output")) in
  let u := fresh s in
  let n := S (fresh s) in
  let a := {| href := Some u; download := Some py_name |} in
  log s' = log s ++ [ACreateObjectURL u b; AAppendChild n; AClick a (Some b);
                     ARemoveChild n; ARevokeObjectURL u]
  ∧ object_urls s' = delete u (object_urls s)
  ∧ body_children s'
    = List.filter (fun c => negb (Nat.eqb (fst c) n)) (body_children s)
  ∧ classes s' = classes s ∧ text s' = text s ∧ disabled s' = disabled s
  ∧ timers s' = timers s ∧ stepTimer s' = stepTimer s ∧ inflight s' = inflight s
  ∧ tabs s' = tabs s ∧ form s' = form s.
Proof.
  intros s' b u n a. subst s' b u n a. unfold on_download_script, text_of.
  js_unfold. cbn. rewrite lookup_insert_eq. rewrite <- !app_assoc. cbn.
  split_and!; try done.
  - by rewrite delete_insert_eq.
  - rewrite List.filter_app. cbn. rewrite Nat.eqb_refl. cbn. by rewrite app_nil_r.
Qed.

(** X15: a click on the download button saves exactly one file, the UTF-8
    bytes of the script text (as the textarea returns it) under the name
    ['Bharath_Kumar_Tailored_Resume.py']; it sends no request, leaves its
    object URL revoked and its anchor out of the body, and changes nothing
    else on the page. *)
Theorem download_script_saves_once (s : state) :
  let s' := run on_download_script s in
  let b := utf8_encode (normalize_newlines (text_of s "script-output")) in
  downloads (log s') = downloads (log s) ++ [(b, py_name)]
  ∧ requests (log s') = requests (log s)
  ∧ object_urls s' !! fresh s = None
  ∧ (S (fresh s) ∉ (body_children s').*1)
  ∧ classes s' = classes s ∧ text s' = text s ∧ disabled s' = disabled s
  ∧ timers s' = timers s ∧ inflight s' = inflight s.
Proof.
  intros s' b.
  destruct (download_script_log s)
    as (Hl & Hu & Hb & Hc & Ht & Hd & Hti & _ & Hi & _).
  fold s' in Hl, Hu, Hb, Hc, Ht, Hd, Hti, Hi. fold b in Hl.
  split_and!; try done.
  - rewrite Hl. unfold downloads. by rewrite omap_app.
  - rewrite Hl. unfold requests. rewrite omap_app. cbn. by rewrite app_nil_r.
  - rewrite Hu. apply lookup_delete_eq.
  - rewrite Hb. rewrite list_elem_of_fmap. intros [[n' a'] [Hn Hin]]. cbn in Hn. subst n'.
    apply list_elem_of_In, filter_In in Hin as [_ Hne]. cbn in Hne.
    by rewrite Nat.eqb_refl in Hne.
Qed.

Lemma normalize_cons_ne (c : N) (r : jsstring) :
  c ≠ 13 -> normalize_newlines (c :: r) = c :: normalize_newlines r.
Proof.
  intros Hc. destruct c as [|p]; [done|].
  do 4 (destruct p as [p|p|]; try done).
Qed.

Lemma utf8_encode_cons_ascii (c : N) (r : jsstring) :
  c < 128 -> utf8_encode (c :: r) = byte_of_N c :: utf8_encode r.
Proof.
  intros Hc. unfold utf8_encode. cbn [code_points].
  assert (Hh : is_high_surrogate c = false).
  { unfold is_high_surrogate, in_range. apply andb_false_iff. left. apply N.leb_gt. lia. }
  assert (Hl : is_low_surrogate c = false).
  { unfold is_low_surrogate, in_range. apply andb_false_iff. left. apply N.leb_gt. lia. }
  rewrite Hh, Hl. cbn [mbind list_bind]. unfold utf8_of_code_point.
  by rewrite (proj2 (N.ltb_lt _ _) Hc).
Qed.

(** An ASCII text without carriage returns is saved byte for byte. *)
Lemma ascii_saved_verbatim (v : jsstring) :
  Forall (fun c => c < 128 ∧ c ≠ 13) v ->
  utf8_encode (normalize_newlines v) = byte_of_N <$> v.
Proof.
  induction 1 as [|c v [Hc Hn] _ IH]; [done|].
  rewrite normalize_cons_ne, utf8_encode_cons_ascii by done. cbn. by rewrite IH.
Qed.

(** X16: a usable script response opens the modal; closing it (close
    button, click on the backdrop, Escape) hides it and keeps the script,
    so that a later click on the download button saves the script of the
    response: its UTF-8 bytes, which for an ASCII script without carriage
    returns are its characters one for one. *)
Theorem script_saved_after_close
    (E : engine) (resp : response) (members : list (jsstring * json))
    (script summary : jsstring) (close : js unit) (s : state) :
  ok resp = true ->
  json_result resp = inr (JObj members) ->
  own_property members (lit "script") = Some (JStr script) ->
  own_property members (lit "changes_summary") = Some (JStr summary) ->
  closes_modal close ->
  let s1 := run (on_settled E Script (Responded resp)) s in
  let s2 := run close s1 in
  let s3 := run on_download_script s2 in
  ¬ has_class s1 "script-modal" "hidden"
  ∧ has_class s2 "script-modal" "hidden"
  ∧ downloads (log s3)
    = downloads (log s) ++ [(utf8_encode (normalize_newlines script), py_name)]
  ∧ (Forall (fun c => c < 128 ∧ c ≠ 13) script ->
     downloads (log s3) = downloads (log s) ++ [(byte_of_N <$> script, py_name)]).
Proof.
  intros Hok Hj Hs Hc Hclose s1 s2 s3.
  assert (H1 : text_of s1 "script-output" = script ∧ log s1 = log s
               ∧ ¬ has_class s1 "script-modal" "hidden").
  { subst s1. unfold has_class. js_unfold. cbn. rewrite Hok. cbn. rewrite Hj. cbn.
    unfold get_property. rewrite Hs. cbn. rewrite or_value_JStr, ToString_JStr. cbn.
    rewrite Hc. cbn. rewrite or_value_JStr, ToString_JStr. cbn.
    split_and!; [by text_simpl | done | classes_simpl; set_solver]. }
  destruct H1 as (Ht1 & Hl1 & Hm1).
  assert (H2 : text s2 = text s1 ∧ log s2 = log s1 ∧ has_class s2 "script-modal" "hidden").
  { subst s2. unfold has_class.
    destruct Hclose as [-> | [-> | ->]]; unfold on_modal_close, on_modal_click, on_keydown;
      rewrite ?bool_decide_eq_true_2 by done; js_unfold; cbn;
      (split_and!; [done | done | classes_simpl; set_solver]). }
  destruct H2 as (Ht2 & Hl2 & Hm2).
  assert (H3 : downloads (log s3)
               = downloads (log s) ++ [(utf8_encode (normalize_newlines script), py_name)]).
  { destruct (download_script_log s2) as (Hd & _). fold s3 in Hd.
    rewrite Hd. unfold downloads. rewrite omap_app. cbn. rewrite Hl2, Hl1.
    unfold text_of. rewrite Ht2. fold (text_of s1 "script-output").
    by rewrite Ht1. }
  split_and!; try done.
  intros Ha. by rewrite H3, ascii_saved_verbatim.
Qed.

Lemma script_saved_after_close_witness :
  closes_modal (on_keydown (lit "Escape"))
  ∧ let s1 := run (on_settled v8 Script (Responded scripted)) loading_page in
    let s2 := run (on_keydown (lit "Escape")) s1 in
    let s3 := run on_download_script s2 in
    has_class s2 "script-modal" "hidden"
    ∧ downloads (log s3)
      = downloads (log loading_page)
        ++ [(utf8_encode (normalize_newlines (lit "story = [1]")), py_name)].
Proof.
  assert (H : closes_modal (on_keydown (lit "Escape"))) by (right; by right).
  split; [exact H|].
  destruct (script_saved_after_close v8 scripted
              [(lit "script", JStr (lit "story = [1]"));
               (lit "changes_summary", JStr (lit "Reordered skills"))]
              (lit "story = [1]") (lit "Reordered skills")
              (on_keydown (lit "Escape")) loading_page
              eq_refl eq_refl eq_refl eq_refl H) as (_ & Hm & Hd & _).
  split; [exact Hm | exact Hd].
Defined.

(** ** All events together *)

(** The handlers of the request flow leave the URL store and the body as
    they found them, and show at most one panel. *)
Lemma settled_tidy (E : engine) (tr : trigger) (o : outcome) (s : state) :
  object_urls s = ∅ -> body_children s = [] ->
  has_class s "results-panel" "hidden" -> has_class s "error-panel" "hidden" ->
  let s' := run (on_settled E tr o) s in
  object_urls s' = ∅ ∧ body_children s' = []
  ∧ (has_class s' "results-panel" "hidden" ∨ has_class s' "error-panel" "hidden").
Proof.
  intros Hu Hb Hr He s'. subst s'. unfold has_class in *.
  destruct tr, o as [e|resp]; js_unfold; cbn;
    try (destruct (ok resp); cbn; rewrite ?throw_server_error_result; cbn);
    js_cases; rewrite ?Hu, ?Hb; cbn; rewrite ?Nat.eqb_refl; cbn.
  all: split; [by rewrite ?delete_insert_eq, ?delete_empty|]; split; [done|].
  all: first [ left; classes_simpl; set_solver | right; classes_simpl; set_solver ].
Qed.

Lemma trigger_tidy (E : engine) (tr : trigger) (s : state) :
  object_urls s = ∅ -> body_children s = [] -> quiet s ->
  tidy (run (on_trigger E tr) s).
Proof.
  intros Hu Hb (Hi & Ht & Hg & Hs & Ho & Hp). unfold tidy, quiet, busy, has_class in *.
  destruct (collectFormData s) as [data|] eqn:Hdata.
  - destruct (validate s data) as [err|] eqn:Hv.
    + destruct tr; js_unfold; rewrite Hdata; cbn; rewrite Hv; cbn;
        (split; [done|]); (split; [done|]); left;
        (split_and!; try done; [by classes_simpl|]);
        left; classes_simpl; set_solver.
    + split; [destruct tr; js_unfold; rewrite Hdata; cbn; by rewrite Hv|].
      split; [destruct tr; js_unfold; rewrite Hdata; cbn; by rewrite Hv|].
      right. exists tr, (fresh s), {| delay := 4000; idx := 0 |}.
      destruct tr; js_unfold; rewrite Hdata; cbn; rewrite Hv; cbn; rewrite ?Hi, ?Ht;
        (split_and!;
         first [ done | by rewrite insert_empty | classes_simpl; set_solver ]).
  - destruct tr; js_unfold; rewrite Hdata; cbn;
      (split; [done|]); (split; [done|]); by left.
Qed.

(** An expiry of the timer touches the step elements and the timer's own
    [idx], nothing else. *)
Lemma step_callback_frame (E : engine) (t : nat) (tm : timer) (s : state) :
  timers s !! t = Some tm ->
  let s' := run (step_callback E t) s in
  (∃ tm', timers s' = <[t := tm']> (timers s) ∧ delay tm' = delay tm)
  ∧ stepTimer s' = stepTimer s ∧ inflight s' = inflight s ∧ disabled s' = disabled s
  ∧ object_urls s' = object_urls s ∧ body_children s' = body_children s
  ∧ log s' = log s ∧ text s' = text s
  ∧ (∀ id, id ∉ STEPS -> class_list s' id = class_list s id).
Proof.
  intros Ht s'. subst s'. js_unfold. rewrite Ht. destruct tm as [d k].
  destruct k as [|[|[|k]]]; cbn.
  1-3: split; [by eexists|]; split_and!; try done;
    intros id Hid; unfold STEPS in Hid; classes_simpl;
    rewrite ?classes_of_add_ne, ?classes_of_remove_ne by (intros <-; apply Hid; set_solver);
    done.
  split; [exists {| delay := d; idx := S (S (S k)) |}; by rewrite insert_id|].
  by split_and!.
Qed.

(** A click in the tab bar changes the tabs and the ['active'] class of
    elements, nothing else. *)
Lemma tab_click_frame (E : engine) (hit : option nat) (s : state) :
  let s' := run (on_tab_click E hit) s in
  form s' = form s ∧ text s' = text s ∧ disabled s' = disabled s
  ∧ timers s' = timers s ∧ stepTimer s' = stepTimer s ∧ inflight s' = inflight s
  ∧ log s' = log s ∧ object_urls s' = object_urls s
  ∧ body_children s' = body_children s
  ∧ (∀ id c, c ≠ "active"%string -> has_class s' id c <-> has_class s id c).
Proof.
  intros s'. subst s'. unfold on_tab_click, remove_active_from_all, element_by_id, has_class.
  js_unfold. destruct hit as [i|]; [|by split_and!]. cbn.
  destruct (tabs s !! i) as [t|]; [|by split_and!]. cbn.
  destruct (bool_decide _); [|by split_and!]. cbn.
  destruct (element_id _) as [k|]; [destruct (bool_decide _)|]; cbn;
    (split_and!; try done); intros id c Hc; unfold class_list; cbn;
    try (destruct (decide (k = id)) as [->|Hne];
         [rewrite classes_of_add_eq | rewrite classes_of_add_ne by done]);
    rewrite !classes_of_fmap by apply remove_active_where_empty;
    rewrite ?elem_of_union, !remove_active_where_spec; set_solver.
Qed.

(** The handlers of the copy button change the label of that button, the
    one-shot timers, the pending clipboard writes and the log, nothing
    else; what they add to the log is no request and no download. *)
Lemma copy_frame (E : engine) (e : ui_event) (s : state) :
  match e with
  | UiCopyClick _ | UiCopySettled _ | UiTimeout _ => True
  | _ => False
  end ->
  let s' := run (ui_handler E e) s in
  classes s' = classes s ∧ disabled s' = disabled s
  ∧ timers s' = timers s ∧ stepTimer s' = stepTimer s ∧ inflight s' = inflight s
  ∧ object_urls s' = object_urls s ∧ body_children s' = body_children s
  ∧ tabs s' = tabs s ∧ form s' = form s
  ∧ (∀ id, id ≠ "copy-script-btn"%string -> text s' !! id = text s !! id)
  ∧ ∃ l, log s' = log s ++ l ∧ requests l = [] ∧ downloads l = [].
Proof.
  destruct e as [| | | | | |[e|]|[e|]|t]; try done; intros _ s'; subst s';
    unfold ui_handler, on_copy_click, on_copy_settled, copy_fallback, copy_label_reset;
    js_unfold; cbn; split_and!; try done;
    try (intros id Hid; by rewrite lookup_insert_ne).
  all: first [ exists []; split; [by rewrite app_nil_r | by split]
             | rewrite <- ?app_assoc; eexists; split; [reflexivity | by split] ].
Qed.

(** Every event of the page keeps it tidy. *)
Lemma tidy_step (E : engine) (s : state) (e : ui_event) :
  tidy s -> ui_enabled s e -> tidy (run (ui_handler E e) s).
Proof.
  intros (Hu & Hb & Hq) He. unfold tidy, quiet, busy in *.
  destruct e as [e|hit| |b|key| |call|o|t0]; cbn [ui_handler].
  - destruct e as [t f| | |t'|tr o|]; cbn in He; cbn [handler].
    + split; [done|]. split; [done|].
      destruct Hq as [Hq|(tr & t0 & tm & H)]; [by left|right]. by exists tr, t0, tm.
    + destruct Hq as [Hq|(tr & t0 & tm & _ & _ & _ & _ & Hg & _)]; [|done].
      by apply trigger_tidy.
    + destruct Hq as [Hq|(tr & t0 & tm & _ & _ & _ & _ & _ & Hg & _)]; [|done].
      by apply trigger_tidy.
    + destruct Hq as [(_ & Ht & _)|(tr & t0 & tm & Hi & Hst & Ht & Hd & Hg & Hs & Ho & Hr & Her)].
      { rewrite Ht, lookup_empty in He. by destruct He. }
      assert (t' = t0) as ->.
      { destruct (decide (t' = t0)); [done|].
        rewrite Ht, lookup_singleton_ne in He by done. by destruct He. }
      assert (Hl : timers s !! t0 = Some tm) by (by rewrite Ht, lookup_singleton_eq).
      destruct (step_callback_frame E t0 tm s Hl)
        as ((tm' & Ht' & Hd') & Hst' & Hi' & Hdis & Hu' & Hb' & _ & _ & Hc).
      split; [by rewrite Hu'|]. split; [by rewrite Hb'|]. right.
      exists tr, t0, tm'. unfold has_class in *.
      rewrite Hi', Hst', Ht', Hdis, Ht, !Hc by (unfold STEPS; set_solver).
      split_and!; try done; [by rewrite insert_singleton_eq | congruence].
    + destruct Hq as [(Hi & _)|(tr0 & t0 & tm & Hi & Hst & Ht & Hd & Hg & Hs & Ho & Hr & Her)].
      { rewrite Hi in He. by apply elem_of_nil in He. }
      rewrite Hi in He. apply list_elem_of_singleton in He as ->.
      rewrite run_modify_seq.
      set (s1 := set_inflight (settle tr0 (inflight s)) s).
      destruct (settled_cleanup E tr0 o s1) as (Ht' & _ & Hi' & Hdis & Ho' & _).
      destruct (settled_tidy E tr0 o s1 Hu Hb Hr Her) as (Hu' & Hb' & Hp').
      split; [done|]. split; [done|]. left. split_and!; try done.
      * rewrite Hi'. subst s1. cbn. by rewrite Hi, settle_single.
      * rewrite Ht'. subst s1. cbn. rewrite Hst, Ht. apply delete_singleton_eq.
      * rewrite Hdis. set_solver.
      * rewrite Hdis. set_solver.
    + unfold has_class in *. js_unfold. cbn.
      split; [done|]. split; [done|].
      destruct Hq as [(Hi & Ht & Hg & Hs & Ho & Hp)|(tr & t0 & tm & Hi & Hst & Ht & Hd & Hg & Hs & Ho & Hr & Her)].
      * left. split_and!; try done; [by classes_simpl|].
        right. classes_simpl. set_solver.
      * right. exists tr, t0, tm.
        split_and!; try done; classes_simpl; set_solver.
  - destruct (tab_click_frame E hit s)
      as (_ & _ & Hdis & Ht & Hst & Hi & _ & Hu' & Hb' & Hc).
    split; [by rewrite Hu'|]. split; [by rewrite Hb'|].
    destruct Hq as [(Hi0 & Ht0 & Hg & Hs & Ho & Hp)|(tr & t0 & tm & Hi0 & Hst0 & Ht0 & Hd & Hg & Hs & Ho & Hr & Her)].
    + left. rewrite Hi, Ht, Hdis, !Hc by done. by split_and!.
    + right. exists tr, t0, tm. rewrite Hi, Hst, Ht, Hdis, !Hc by done. by split_and!.
  - unfold has_class in *. unfold on_modal_close. js_unfold. cbn.
    split; [done|]. split; [done|].
    destruct Hq as [(Hi & Ht & Hg & Hs & Ho & Hp)|(tr & t0 & tm & H)].
    + left. split_and!; try done; [by classes_simpl|].
      destruct Hp; [left|right]; by classes_simpl.
    + right. exists tr, t0, tm.
      destruct H as (? & ? & ? & ? & ? & ? & ? & ? & ?).
      split_and!; try done; by classes_simpl.
  - destruct b; [|done].
    unfold has_class in *. unfold on_modal_click. js_unfold. cbn.
    split; [done|]. split; [done|].
    destruct Hq as [(Hi & Ht & Hg & Hs & Ho & Hp)|(tr & t0 & tm & H)].
    + left. split_and!; try done; [by classes_simpl|].
      destruct Hp; [left|right]; by classes_simpl.
    + right. exists tr, t0, tm.
      destruct H as (? & ? & ? & ? & ? & ? & ? & ? & ?).
      split_and!; try done; by classes_simpl.
  - unfold on_keydown. destruct (bool_decide _); [|done].
    unfold has_class in *. js_unfold. cbn.
    split; [done|]. split; [done|].
    destruct Hq as [(Hi & Ht & Hg & Hs & Ho & Hp)|(tr & t0 & tm & H)].
    + left. split_and!; try done; [by classes_simpl|].
      destruct Hp; [left|right]; by classes_simpl.
    + right. exists tr, t0, tm.
      destruct H as (? & ? & ? & ? & ? & ? & ? & ? & ?).
      split_and!; try done; by classes_simpl.
  - destruct (download_script_log s)
      as (_ & Hu' & Hb' & Hc & _ & Hdis & Ht & Hst & Hi & _).
    split; [rewrite Hu', Hu; apply delete_empty|].
    split; [by rewrite Hb', Hb|].
    unfold quiet, busy, has_class, class_list in *.
    destruct Hq as [Hq|(tr & t0 & tm & Hq)]; [left|right; exists tr, t0, tm];
      by rewrite ?Hc, ?Hdis, ?Ht, ?Hst, ?Hi.
  - pose proof (copy_frame E (UiCopyClick call) s I) as H. cbn [ui_handler] in H.
    destruct H as (Hc & Hdis & Ht & Hst & Hi & Hu' & Hb' & _).
    split; [by rewrite Hu', Hu|]. split; [by rewrite Hb', Hb|].
    unfold quiet, busy, has_class, class_list in *.
    destruct Hq as [Hq|(tr & t1 & tm & Hq)]; [left|right; exists tr, t1, tm];
      by rewrite ?Hc, ?Hdis, ?Ht, ?Hst, ?Hi.
  - pose proof (copy_frame E (UiCopySettled o) s I) as H. cbn [ui_handler] in H.
    destruct H as (Hc & Hdis & Ht & Hst & Hi & Hu' & Hb' & _).
    split; [by rewrite Hu', Hu|]. split; [by rewrite Hb', Hb|].
    unfold quiet, busy, has_class, class_list in *.
    destruct Hq as [Hq|(tr & t1 & tm & Hq)]; [left|right; exists tr, t1, tm];
      by rewrite ?Hc, ?Hdis, ?Ht, ?Hst, ?Hi.
  - pose proof (copy_frame E (UiTimeout t0) s I) as H. cbn [ui_handler] in H.
    destruct H as (Hc & Hdis & Ht & Hst & Hi & Hu' & Hb' & _).
    split; [by rewrite Hu', Hu|]. split; [by rewrite Hb', Hb|].
    unfold quiet, busy, has_class, class_list in *.
    destruct Hq as [Hq|(tr & t1 & tm & Hq)]; [left|right; exists tr, t1, tm];
      by rewrite ?Hc, ?Hdis, ?Ht, ?Hst, ?Hi.
Qed.

Lemma ui_reachable_tidy (E : engine) (s : state) : ui_reachable E s -> tidy s.
Proof.
  induction 1 as [s ((Ht & Hi & Hd) & Hu & Hb & Ho & Hp)|s s' _ IH Hstep].
  - split; [done|]. split; [done|]. left. unfold quiet. rewrite Hd.
    split_and!; set_solver.
  - destruct Hstep as [s e He]. by apply tidy_step.
Qed.

Ltac log_done :=
  first [ exists []; split; [by rewrite app_nil_r | by split]
        | rewrite <- ?app_assoc; eexists; split; [reflexivity | by split] ].

(** What each event adds to the log. *)
Lemma ui_handler_log (E : engine) (e : ui_event) (s : state) :
  ∃ l, log (run (ui_handler E e) s) = log s ++ l
       ∧ requests l = outgoing s e ∧ downloads l = saved s e.
Proof.
  destruct e as [e|hit| |b|key| |call|o|t0]; cbn [ui_handler].
  - destruct e as [t f| | |t'|tr o|]; cbn [handler].
    + log_done.
    + unfold outgoing, accepted_request. js_unfold.
      destruct (collectFormData s) as [data|]; cbn; [|log_done].
      destruct (validate s data); cbn; log_done.
    + unfold outgoing, accepted_request. js_unfold.
      destruct (collectFormData s) as [data|]; cbn; [|log_done].
      destruct (validate s data); cbn; log_done.
    + js_unfold. destruct (timers s !! t') as [[d k]|]; [|log_done].
      destruct k as [|[|[|k]]]; cbn; log_done.
    + rewrite run_modify_seq. unfold saved.
      destruct tr, o as [e|resp]; js_unfold; cbn;
        try (destruct (ok resp); cbn; rewrite ?throw_server_error_result; cbn);
        js_cases; rewrite ?lookup_insert_eq; log_done.
    + log_done.
  - destruct (tab_click_frame E hit s) as (_ & _ & _ & _ & _ & _ & Hl & _).
    rewrite Hl. log_done.
  - log_done.
  - destruct b; log_done.
  - unfold on_keydown. destruct (bool_decide _); log_done.
  - destruct (download_script_log s) as (Hl & _). rewrite Hl. unfold saved. log_done.
  - pose proof (copy_frame E (UiCopyClick call) s I) as H. cbn [ui_handler] in H.
    by destruct H as (_ & _ & _ & _ & _ & _ & _ & _ & _ & _ & H).
  - pose proof (copy_frame E (UiCopySettled o) s I) as H. cbn [ui_handler] in H.
    by destruct H as (_ & _ & _ & _ & _ & _ & _ & _ & _ & _ & H).
  - pose proof (copy_frame E (UiTimeout t0) s I) as H. cbn [ui_handler] in H.
    by destruct H as (_ & _ & _ & _ & _ & _ & _ & _ & _ & _ & H).
Qed.

(** X17: whatever the event and the state, the only requests an event
    adds are the one request of a submit or of a click on the script button
    whose payload [validate] accepts; every other event, and a trigger with
    a rejected or unreadable payload, sends nothing. *)
Theorem requests_only_from_accepted_triggers (E : engine) (e : ui_event) (s : state) :
  requests (log (run (ui_handler E e) s)) = requests (log s) ++ outgoing s e.
Proof.
  destruct (ui_handler_log E e s) as (l & Hl & Hr & _).
  rewrite Hl. unfold requests in *. by rewrite omap_app, Hr.
Qed.

(** X18: whatever the event and the state, a file is saved only when a
    generate request settles to a response that is ok, whose summary header
    decodes and whose body is read (the response's blob, as the PDF), and
    when the download button is clicked (the script, as the .py file); a
    failed request, a script response and every other event save
    nothing. *)
Theorem downloads_only_from_two_places (E : engine) (e : ui_event) (s : state) :
  downloads (log (run (ui_handler E e) s)) = downloads (log s) ++ saved s e.
Proof.
  destruct (ui_handler_log E e s) as (l & Hl & _ & Hd).
  rewrite Hl. unfold downloads in *. by rewrite omap_app, Hd.
Qed.

(** X19: in every state reachable from a served page through the events
    of the page (those of the copy button among them), at most one request
    is pending and at most one interval timer is live, and a request is
    pending exactly when the generate button is disabled, when the script
    button is disabled, when an interval timer is live and when the overlay
    is visible.  The one-shot timers the copy button starts ([timeouts]) are
    not counted: one can be live while nothing is pending. *)
Theorem one_request_at_a_time (E : engine) (s : state) :
  ui_reachable E s ->
  (length (inflight s) <= 1)%nat
  ∧ (size (timers s) <= 1)%nat
  ∧ (inflight s ≠ [] <-> "generate-btn"%string ∈ disabled s)
  ∧ (inflight s ≠ [] <-> "script-btn"%string ∈ disabled s)
  ∧ (inflight s ≠ [] <-> timers s ≠ ∅)
  ∧ (inflight s ≠ [] <-> ¬ has_class s "loading-overlay" "hidden").
Proof.
  intros Hr. apply ui_reachable_tidy in Hr as (_ & _ & Hq).
  destruct Hq as [(Hi & Ht & Hg & Hs & Ho & _)
                 |(tr & t & tm & Hi & _ & Ht & _ & Hg & Hs & Ho & _)].
  - rewrite Hi, Ht, map_size_empty. cbn. split_and!; try lia; naive_solver.
  - rewrite Hi, Ht, map_size_singleton. cbn.
    assert ({[t := tm]} ≠ (∅ : gmap nat timer)) by apply insert_non_empty.
    split_and!; try lia; naive_solver.
Qed.

Lemma served_page_clean : clean served_page.
Proof.
  unfold clean, loaded, has_class. split_and!; try reflexivity.
  left. reflexivity.
Defined.

Lemma served_loading_reachable : ui_reachable v8 served_loading.
Proof.
  apply (ui_reachable_step v8 served_page); [apply ui_reachable_clean, served_page_clean|].
  apply (ui_step_event v8 served_page (UiRequest EvSubmit)).
  cbn. apply (bool_decide_unpack _). by vm_compute.
Defined.

Lemma served_done_reachable : ui_reachable v8 served_done.
Proof.
  apply (ui_reachable_step v8 served_loading); [apply served_loading_reachable|].
  apply (ui_step_event v8 served_loading
           (UiRequest (EvSettled Generate (Responded (tailored []))))).
  unfold ui_enabled, enabled.
  assert (Hi : inflight served_loading = [Generate]) by reflexivity.
  rewrite Hi. constructor.
Defined.

Lemma served_copied_reachable : ui_reachable v8 served_copied.
Proof.
  eapply ui_reachable_step;
    [eapply ui_reachable_step; [apply ui_reachable_clean, served_page_clean|]|].
  - by apply (ui_step_event v8 served_page (UiCopyClick None)).
  - by apply (ui_step_event v8 _ (UiCopySettled None)).
Defined.

Lemma one_request_at_a_time_witness :
  ui_reachable v8 served_loading
  ∧ inflight served_loading = [Generate]
  ∧ "generate-btn"%string ∈ disabled served_loading
  ∧ ui_reachable v8 served_copied
  ∧ timeouts served_copied = {[0%nat := 2000]}
  ∧ text_of served_copied "copy-script-btn" = [10003] ++ lit " Copied!"
  ∧ inflight served_copied = []
  ∧ timers served_copied = ∅.
Proof.
  split; [apply served_loading_reachable|]. split; [reflexivity|].
  destruct (one_request_at_a_time v8 served_loading served_loading_reachable)
    as (_ & _ & Hg & _).
  split; [by apply Hg|].
  split; [apply served_copied_reachable|]. split; [reflexivity|].
  split; [reflexivity|]. split; [reflexivity|].
  destruct (one_request_at_a_time v8 served_copied served_copied_reachable)
    as (_ & _ & _ & _ & Ht & _).
  destruct (decide (timers served_copied = ∅)) as [H|H]; [exact H|].
  apply Ht in H. exfalso. apply H. reflexivity.
Defined.

(** X20: in every state reachable from a served page no object URL made
    by the script is left in the store and no anchor made by the script is
    left in the body: each handler that creates them removes them before it
    returns. *)
Theorem no_url_or_anchor_left (E : engine) (s : state) :
  ui_reachable E s -> object_urls s = ∅ ∧ body_children s = [].
Proof. intros Hr. by apply ui_reachable_tidy in Hr as (Hu & Hb & _). Qed.

Lemma no_url_or_anchor_left_witness :
  ui_reachable v8 served_done
  ∧ downloads (log served_done) = [(pdf_bytes, pdf_name)]
  ∧ object_urls served_done = ∅ ∧ body_children served_done = [].
Proof.
  split; [apply served_done_reachable|]. split; [reflexivity|].
  apply (no_url_or_anchor_left v8 served_done served_done_reachable).
Defined.

(** X21: in every state reachable from a served page the results panel
    and the error panel are never both visible, and while a request is
    pending both are hidden. *)
Theorem one_panel_at_most (E : engine) (s : state) :
  ui_reachable E s ->
  (has_class s "results-panel" "hidden" ∨ has_class s "error-panel" "hidden")
  ∧ (inflight s ≠ [] ->
     has_class s "results-panel" "hidden" ∧ has_class s "error-panel" "hidden").
Proof.
  intros Hr. apply ui_reachable_tidy in Hr as (_ & _ & Hq).
  destruct Hq as [(Hi & _ & _ & _ & _ & Hp)
                 |(tr & t & tm & Hi & _ & _ & _ & _ & _ & _ & Hr & He)].
  - split; [done|]. by rewrite Hi.
  - split; [by left|done].
Qed.

Lemma one_panel_at_most_witness :
  ui_reachable v8 served_loading
  ∧ inflight served_loading ≠ []
  ∧ has_class served_loading "results-panel" "hidden"
  ∧ has_class served_loading "error-panel" "hidden".
Proof.
  split; [apply served_loading_reachable|].
  assert (H : inflight served_loading ≠ []) by done.
  split; [exact H|].
  by apply (one_panel_at_most v8 served_loading served_loading_reachable).
Defined.
